(** * Shop management backend: purchase derivation, customer aggregates,
      scoped purchase and customer routes, monthly growth.

    A shallow embedding of
      - [models/Purchase.js]   (schema, [pre('save')], [post('save')], [isOverdue]),
      - [models/Customer.js]   ([updatePurchaseStats]),
      - [routes/purchaseRoutes.js], [routes/customerRoutes.js],
      - [routes/dashboardRoutes.js] ([getMonthlyComparison], the overview,
        the status distribution, the top customers),
      - [middleware/authMiddleware.js] ([restrictTo], [checkOwnership]),
      - [utils/database.js] (the seeder's sample purchases and its last loop).

    Conventions.
      - A JavaScript [Number] holding an amount or a count is an integer [Z]
        (amounts in the smallest currency unit); a field that may be
        [undefined] or [NaN] is an [option Z] with [None] for both, since the
        code treats the two alike ([!x] is true, [x - y] is [NaN],
        every comparison with it is false).
      - A [Date] is its millisecond time stamp, a [Z]; an optional date is an
        [option Z].  The clock read by [new Date()] is an explicit argument
        [now].
      - A MongoDB collection is a finite map from [_id] to document.
      - Amounts are whole numbers, for which the sums of the code are exact
        in whatever order they are taken; no statement below is about sums
        of fractional amounts.
      - The purchase schema's validators ([required], [min]) are
        [Item.valid] and [Purchase.valid].  [save()] validates the document
        before the [pre('save')] hook runs, and [findOneAndUpdate] with
        [runValidators: true] validates the update before the query is sent;
        both fail with [ValidationError].  The customers' contact fields
        and their validators are not modelled; the customer routes that take
        a body ([createCustomer], [updateCustomer]) are left out.
      - An [_id] is an abstract identifier; a string that is no [ObjectId]
        is outside the model.
      - Socket.IO emissions and [populate] are left out; a handler returns
        the new database and either the HTTP status and document it answers
        with or the error it passes to [next]. *)

From Stdlib Require Import ZArith QArith Qround Qabs String List Bool Lia Lqa.
From stdpp Require Import base option list gmap sorting.

Local Open Scope Z_scope.

(** ** JavaScript numbers that may be [undefined] or [NaN] *)

Module Js.

(** [!x] for a number: true for [undefined], [NaN] and [0]. *)
Definition falsy (x : option Z) : bool :=
  match x with
  | None => true
  | Some z => z =? 0
  end.

(** [x - y]; [undefined - y] and [NaN - y] are [NaN]. *)
Definition sub (x : option Z) (y : Z) : option Z :=
  match x with
  | None => None
  | Some z => Some (z - y)
  end.

(** [x <= 0]; false on [NaN]. *)
Definition le0 (x : option Z) : bool :=
  match x with
  | None => false
  | Some z => z <=? 0
  end.

(** [x > 0]; false on [NaN]. *)
Definition gt0 (x : option Z) : bool :=
  match x with
  | None => false
  | Some z => 0 <? z
  end.

(** [d && now > d] for an optional [Date] [d]: a [Date] object is always
    truthy, an absent one is not. *)
Definition after (now : Z) (d : option Z) : bool :=
  match d with
  | None => false
  | Some t => t <? now
  end.

End Js.

(** ** models/Purchase.js *)

Inductive paymentStatus_t := pending | completed | overdue | cancelled.

Inductive paymentMethod_t := cash | card | bank_transfer | upi | wallet | other.

#[global] Instance paymentStatus_eq_dec : EqDecision paymentStatus_t.
Proof. solve_decision. Defined.

#[global] Instance paymentMethod_eq_dec : EqDecision paymentMethod_t.
Proof. solve_decision. Defined.

Module Item.

(** [purchaseItemSchema].  [totalPrice] is [None] while the caller has not
    supplied it. *)
Record t := mk {
  productName : string;
  quantity : Z;
  unitPrice : Z;
  totalPrice : option Z
}.

Definition set_totalPrice (v : Z) (i : t) : t :=
  mk (productName i) (quantity i) (unitPrice i) (Some v).

(** The schema's validators: [quantity] min 1, [unitPrice] min 0,
    [totalPrice] required. *)
Definition valid (i : t) : bool :=
  (1 <=? quantity i) && (0 <=? unitPrice i) && bool_decide (is_Some (totalPrice i)).

End Item.

Module Purchase.

(** [purchaseSchema], without [notes], [invoiceNumber] and the time stamps. *)
Record t := mk {
  customer : nat;
  items : list Item.t;
  totalAmount : option Z;
  paymentStatus : paymentStatus_t;
  paymentMethod : paymentMethod_t;
  purchaseDate : Z;
  dueDate : option Z;
  paidAmount : Z;
  remainingAmount : option Z;
  createdBy : nat
}.

Definition set_items (v : list Item.t) (p : t) : t :=
  mk (customer p) v (totalAmount p) (paymentStatus p) (paymentMethod p)
     (purchaseDate p) (dueDate p) (paidAmount p) (remainingAmount p) (createdBy p).

Definition set_totalAmount (v : option Z) (p : t) : t :=
  mk (customer p) (items p) v (paymentStatus p) (paymentMethod p)
     (purchaseDate p) (dueDate p) (paidAmount p) (remainingAmount p) (createdBy p).

Definition set_paymentStatus (v : paymentStatus_t) (p : t) : t :=
  mk (customer p) (items p) (totalAmount p) v (paymentMethod p)
     (purchaseDate p) (dueDate p) (paidAmount p) (remainingAmount p) (createdBy p).

Definition set_paymentMethod (v : paymentMethod_t) (p : t) : t :=
  mk (customer p) (items p) (totalAmount p) (paymentStatus p) v
     (purchaseDate p) (dueDate p) (paidAmount p) (remainingAmount p) (createdBy p).

Definition set_paidAmount (v : Z) (p : t) : t :=
  mk (customer p) (items p) (totalAmount p) (paymentStatus p) (paymentMethod p)
     (purchaseDate p) (dueDate p) v (remainingAmount p) (createdBy p).

Definition set_remainingAmount (v : option Z) (p : t) : t :=
  mk (customer p) (items p) (totalAmount p) (paymentStatus p) (paymentMethod p)
     (purchaseDate p) (dueDate p) (paidAmount p) v (createdBy p).

(** The body of [this.items.forEach(item => ...)]: every item gets
    [totalPrice = quantity * unitPrice], and [calculatedTotal] (the
    accumulator [acc]) grows by it. *)
Fixpoint forEach_item (its : list Item.t) (acc : Z) : list Item.t * Z :=
  match its with
  | [] => ([], acc)
  | i :: rest =>
      let tp := Item.quantity i * Item.unitPrice i in
      let '(rest', acc') := forEach_item rest (acc + tp) in
      (Item.set_totalPrice tp i :: rest', acc')
  end.

(** First block of the hook: [if (this.items && this.items.length > 0)]. *)
Definition calculate_total (p : t) : t :=
  match items p with
  | [] => p
  | _ :: _ =>
      let '(its, calculatedTotal) := forEach_item (items p) 0 in
      let p := set_items its p in
      if Js.falsy (totalAmount p)
      then set_totalAmount (Some calculatedTotal) p
      else p
  end.

(** Last block of the hook: the status is overwritten in two cases and
    left alone in the third (there is no final [else]). *)
Definition update_status (now : Z) (p : t) : t :=
  if Js.le0 (remainingAmount p) then set_paymentStatus completed p
  else if Js.after now (dueDate p) then set_paymentStatus overdue p
  else p.

(** [purchaseSchema.pre('save', ...)]. *)
Definition pre_save (now : Z) (p : t) : t :=
  let p := calculate_total p in
  let p := set_remainingAmount (Js.sub (totalAmount p) (paidAmount p)) p in
  update_status now p.

(** The virtual [isOverdue]:
    [this.dueDate && new Date() > this.dueDate && this.remainingAmount > 0]. *)
Definition isOverdue (now : Z) (p : t) : bool :=
  Js.after now (dueDate p) && Js.gt0 (remainingAmount p).

(** The schema's validators: [totalAmount] required and min 0,
    [paidAmount] min 0, and every item valid. *)
Definition valid (p : t) : bool :=
  match totalAmount p with
  | None => false
  | Some a => (0 <=? a) && (0 <=? paidAmount p) && forallb Item.valid (items p)
  end.

End Purchase.

(** ** models/Customer.js *)

Module Customer.

(** [customerSchema], without the contact fields ([name], [email], [phone],
    [address], [notes]), which no operation below reads or writes. *)
Record t := mk {
  totalPurchases : Z;
  totalSpent : Z;
  lastPurchaseDate : option Z;
  isActive : bool;
  createdBy : nat
}.

Definition set_isActive (v : bool) (c : t) : t :=
  mk (totalPurchases c) (totalSpent c) (lastPurchaseDate c) v (createdBy c).

Definition set_stats (n s : Z) (d : option Z) (c : t) : t :=
  mk n s d (isActive c) (createdBy c).

End Customer.

(** ** The database: the two collections *)

Record db := mkdb {
  customers : gmap nat Customer.t;
  purchases : gmap nat Purchase.t
}.

Definition set_customers (v : gmap nat Customer.t) (d : db) : db :=
  mkdb v (purchases d).

Definition set_purchases (v : gmap nat Purchase.t) (d : db) : db :=
  mkdb (customers d) v.

(** The documents of a collection. *)
Definition documents {A} (m : gmap nat A) : list A := snd <$> map_to_list m.

(** [{ $match: { customer: cid } }], also the filter of
    [Purchase.countDocuments({ customer: cid })]. *)
Definition match_customer (cid : nat) (ps : gmap nat Purchase.t) : list Purchase.t :=
  filter (λ p, Purchase.customer p = cid) (documents ps).

(** [Model.findOne({ _id: id, createdBy: user })]. *)
Definition findOne_purchase (id user : nat) (ps : gmap nat Purchase.t)
  : option Purchase.t :=
  match ps !! id with
  | Some p => if decide (Purchase.createdBy p = user) then Some p else None
  | None => None
  end.

Definition findOne_customer (id user : nat) (cs : gmap nat Customer.t)
  : option Customer.t :=
  match cs !! id with
  | Some c => if decide (Customer.createdBy c = user) then Some c else None
  | None => None
  end.

(** *** Aggregation pipelines *)

Module Stats.

(** A row of the [$group] stage of [updatePurchaseStats]. *)
Record t := mk {
  totalPurchases : Z;
  totalSpent : Z;
  lastPurchaseDate : Z
}.

(** [{ $sum: 1 }]. *)
Definition count (docs : list Purchase.t) : Z := Z.of_nat (length docs).

(** [{ $sum: '$totalAmount' }]; a document without a numeric [totalAmount]
    adds nothing. *)
Definition sum_totalAmount (docs : list Purchase.t) : Z :=
  foldr (λ p acc, default 0 (Purchase.totalAmount p) + acc) 0 docs.

(** [{ $max: '$purchaseDate' }] over a group whose first document is [d]. *)
Definition max_purchaseDate (d : Purchase.t) (rest : list Purchase.t) : Z :=
  foldr (λ p acc, Z.max (Purchase.purchaseDate p) acc) (Purchase.purchaseDate d) rest.

(** [{ $group: { _id: null, ... } }]: one row for all the documents that
    reach the stage, and no row when none does. *)
Definition group (docs : list Purchase.t) : list t :=
  match docs with
  | [] => []
  | d :: rest => [mk (count docs) (sum_totalAmount docs) (max_purchaseDate d rest)]
  end.

End Stats.

(** [customerSchema.methods.updatePurchaseStats], called on the document
    [this] whose [_id] is [cid]; [this.save()] writes it back. *)
Definition updatePurchaseStats (cid : nat) (this : Customer.t) (d : db) : db :=
  let stats := Stats.group (match_customer cid (purchases d)) in
  let this :=
    match stats with
    | s :: _ =>
        Customer.set_stats (Stats.totalPurchases s) (Stats.totalSpent s)
                           (Some (Stats.lastPurchaseDate s)) this
    | [] => this
    end in
  set_customers (<[cid := this]> (customers d)) d.

(** [purchaseSchema.post('save', ...)] for the saved purchase [p]. *)
Definition post_save (p : Purchase.t) (d : db) : db :=
  match customers d !! Purchase.customer p with
  | Some c => updatePurchaseStats (Purchase.customer p) c d
  | None => d
  end.

(** ** Errors and replies *)

(** The errors that reach [next]: the [Error] objects the routes build, with
    a message and a [statusCode], and Mongoose's [ValidationError]. *)
Inductive error :=
| HttpError (statusCode : Z) (message : string)
| ValidationError.

(** [statusCode = 404]. *)
Definition NotFoundError (e : error) : Prop := ∃ m, e = HttpError 404 m.

(** [statusCode = 403], as [authMiddleware.js] sets it. *)
Definition ForbiddenError (e : error) : Prop := ∃ m, e = HttpError 403 m.

(** What a handler ends with: [res.status(s).json(..)] carrying [data], or
    [next(e)]. *)
Inductive reply (A : Type) :=
| Sent (status : Z) (data : A)
| Next (e : error).

Arguments Sent {A} status data.
Arguments Next {A} e.

Definition purchase_not_found {A} : reply A :=
  Next (HttpError 404 "Purchase not found").

Definition customer_not_found {A} : reply A :=
  Next (HttpError 404 "Customer not found").

(** [document.save()] of the purchase [p] stored under [id]: validation,
    then the [pre('save')] hook, the write and the [post('save')] hook.  It
    yields the database and the document as saved, or [None] when the
    document fails validation, which rejects with [ValidationError] before
    anything is written. *)
Definition save_purchase (now : Z) (id : nat) (p : Purchase.t) (d : db)
  : option (db * Purchase.t) :=
  if Purchase.valid p then
    let p := Purchase.pre_save now p in
    let d := set_purchases (<[id := p]> (purchases d)) d in
    Some (post_save p d, p)
  else None.

(** ** Request bodies *)

Module Body.

(** [req.body] of the purchase routes: every field is optional. *)
Record t := mk {
  customer : option nat;
  items : option (list Item.t);
  totalAmount : option Z;
  paymentStatus : option paymentStatus_t;
  paymentMethod : option paymentMethod_t;
  purchaseDate : option Z;
  dueDate : option Z;
  paidAmount : option Z;
  remainingAmount : option Z
}.

Definition empty : t := mk None None None None None None None None None.

End Body.

(** [new Purchase({ ...req.body, createdBy: user })] for the customer [cid]:
    the schema's defaults fill the fields the body leaves out. *)
Definition new_purchase (now : Z) (cid user : nat) (b : Body.t) : Purchase.t :=
  Purchase.mk cid
    (default [] (Body.items b))
    (Body.totalAmount b)
    (default pending (Body.paymentStatus b))
    (default cash (Body.paymentMethod b))
    (default now (Body.purchaseDate b))
    (Body.dueDate b)
    (default 0 (Body.paidAmount b))
    (Some (default 0 (Body.remainingAmount b)))
    user.

(** The update [{ $set: req.body }] that [findOneAndUpdate] applies: the
    fields of the body replace the stored ones, nothing else changes. *)
Definition apply_update (b : Body.t) (p : Purchase.t) : Purchase.t :=
  Purchase.mk
    (default (Purchase.customer p) (Body.customer b))
    (default (Purchase.items p) (Body.items b))
    (match Body.totalAmount b with Some a => Some a | None => Purchase.totalAmount p end)
    (default (Purchase.paymentStatus p) (Body.paymentStatus b))
    (default (Purchase.paymentMethod p) (Body.paymentMethod b))
    (default (Purchase.purchaseDate p) (Body.purchaseDate b))
    (match Body.dueDate b with Some t => Some t | None => Purchase.dueDate p end)
    (default (Purchase.paidAmount p) (Body.paidAmount b))
    (match Body.remainingAmount b with
     | Some r => Some r
     | None => Purchase.remainingAmount p
     end)
    (Purchase.createdBy p).

(** The update validators that [runValidators: true] turns on: the
    validators of the paths the body sets. *)
Definition update_valid (b : Body.t) : bool :=
  match Body.totalAmount b with Some a => 0 <=? a | None => true end
  && match Body.paidAmount b with Some a => 0 <=? a | None => true end
  && match Body.items b with Some its => forallb Item.valid its | None => true end.

(** ** routes/purchaseRoutes.js

    [user] is [req.user._id], [id] is [req.params.id], [b] is [req.body]. *)

(** [GET /api/purchases/:id]. *)
Definition getPurchase (user id : nat) (d : db) : db * reply Purchase.t :=
  match findOne_purchase id user (purchases d) with
  | None => (d, purchase_not_found)
  | Some p => (d, Sent 200 p)
  end.

(** [POST /api/purchases]; [oid] is the [_id] the new document gets. *)
Definition createPurchase (now : Z) (user oid : nat) (b : Body.t) (d : db)
  : db * reply Purchase.t :=
  match Body.customer b with
  | None => (d, customer_not_found)
  | Some cid =>
      match findOne_customer cid user (customers d) with
      | None => (d, customer_not_found)
      | Some _ =>
          match save_purchase now oid (new_purchase now cid user b) d with
          | Some (d, p) => (d, Sent 201 p)
          | None => (d, Next ValidationError)
          end
      end
  end.

(** [PUT /api/purchases/:id]: one [findOneAndUpdate], which is a query and
    runs neither [pre('save')] nor [post('save')]; with [runValidators: true]
    the body is validated first, whatever the [id]. *)
Definition updatePurchase (user id : nat) (b : Body.t) (d : db)
  : db * reply Purchase.t :=
  if update_valid b then
    match findOne_purchase id user (purchases d) with
    | None => (d, purchase_not_found)
    | Some p =>
        let p := apply_update b p in
        (set_purchases (<[id := p]> (purchases d)) d, Sent 200 p)
    end
  else (d, Next ValidationError).

(** [DELETE /api/purchases/:id]. *)
Definition deletePurchase (user id : nat) (d : db) : db * reply unit :=
  match findOne_purchase id user (purchases d) with
  | None => (d, purchase_not_found)
  | Some p =>
      let d := set_purchases (delete id (purchases d)) d in
      let d :=
        match customers d !! Purchase.customer p with
        | Some c => updatePurchaseStats (Purchase.customer p) c d
        | None => d
        end in
      (d, Sent 204 ())
  end.

(** [PUT /api/purchases/:id/payment]: only [paidAmount], [paymentStatus] and
    [paymentMethod] of the body are read. *)
Definition updatePaymentStatus (now : Z) (user id : nat) (b : Body.t) (d : db)
  : db * reply Purchase.t :=
  match findOne_purchase id user (purchases d) with
  | None => (d, purchase_not_found)
  | Some p =>
      let p := match Body.paidAmount b with
               | Some a => Purchase.set_paidAmount a p
               | None => p
               end in
      let p := match Body.paymentStatus b with
               | Some s => Purchase.set_paymentStatus s p
               | None => p
               end in
      let p := match Body.paymentMethod b with
               | Some m => Purchase.set_paymentMethod m p
               | None => p
               end in
      match save_purchase now id p d with
      | Some (d, p) => (d, Sent 200 p)
      | None => (d, Next ValidationError)
      end
  end.

(** ** routes/customerRoutes.js *)

(** [DELETE /api/customers/:id]. *)
Definition deleteCustomer (user id : nat) (d : db) : db * reply unit :=
  match findOne_customer id user (customers d) with
  | None => (d, customer_not_found)
  | Some customer =>
      let purchaseCount := Stats.count (match_customer id (purchases d)) in
      if 0 <? purchaseCount then
        let customer := Customer.set_isActive false customer in
        (set_customers (<[id := customer]> (customers d)) d, Sent 200 ())
      else
        (set_customers (delete id (customers d)) d, Sent 204 ())
  end.

(** ** routes/dashboardRoutes.js: [getMonthlyComparison] *)

Module Month.

(** A row of the [$group] stage of the two monthly pipelines. *)
Record t := mk {
  revenue : Z;
  transactions : Z;
  paid : Z
}.

(** [{ revenue: 0, transactions: 0, paid: 0 }]. *)
Definition zero : t := mk 0 0 0.

(** [{ $sum: '$paidAmount' }]. *)
Definition sum_paidAmount (docs : list Purchase.t) : Z :=
  foldr (λ p acc, Purchase.paidAmount p + acc) 0 docs.

Definition group (docs : list Purchase.t) : list t :=
  match docs with
  | [] => []
  | _ :: _ => [mk (Stats.sum_totalAmount docs) (Stats.count docs) (sum_paidAmount docs)]
  end.

(** [rows[0] || { revenue: 0, transactions: 0, paid: 0 }]. *)
Definition first_or_zero (rows : list t) : t :=
  match rows with
  | r :: _ => r
  | [] => zero
  end.

End Month.

(** The filter [{ createdBy: user, purchaseDate: { $gte: from, $lte: to } }];
    without [to] there is no upper bound. *)
Definition in_period (user : nat) (from : Z) (to : option Z) (p : Purchase.t)
  : bool :=
  bool_decide (Purchase.createdBy p = user)
  && (from <=? Purchase.purchaseDate p)
  && match to with
     | Some e => Purchase.purchaseDate p <=? e
     | None => true
     end.

(** [{ $match: ... }] with that filter. *)
Definition match_period (user : nat) (from : Z) (to : option Z)
    (ps : gmap nat Purchase.t) : list Purchase.t :=
  filter (λ p, in_period user from to p = true) (documents ps).

(** [parseFloat(x.toFixed(digits))] on exact rationals: [toFixed] takes the
    integer [n] with [n / 10^digits] nearest to [|x|], the larger one of two,
    and puts the sign of [x] back.  The program rounds the double it has
    computed, which can lie just beside an exact tie of the rational, so at
    such a tie it may answer the other neighbour; no statement below depends
    on which. *)
Definition toFixed (digits : nat) (x : Q) : Q :=
  let s := Z.to_pos (10 ^ Z.of_nat digits) in
  let n := Qfloor (Qabs x * inject_Z (Z.pos s) + (1 # 2))%Q in
  if Qle_bool 0 x then n # s else (- n) # s.

(** [previous > 0 ? (((current - previous) / previous) * 100).toFixed(2) : 0],
    read back with [parseFloat]. *)
Definition growth (current previous : Z) : Q :=
  if 0 <? previous then
    toFixed 2 (((inject_Z current - inject_Z previous) / inject_Z previous) * 100)%Q
  else 0%Q.

Module Comparison.

(** The [data] of the reply. *)
Record t := mk {
  currentMonth : Month.t;
  previousMonth : Month.t;
  growth_revenue : Q;
  growth_transactions : Q
}.

End Comparison.

(** [GET /api/dashboard/monthly-comparison].  The three dates are computed
    from [new Date()] by calendar arithmetic and come in as arguments. *)
Definition getMonthlyComparison (user : nat)
    (currentMonthStart previousMonthStart previousMonthEnd : Z) (d : db)
  : Comparison.t :=
  let currentMonth :=
    Month.group (match_period user currentMonthStart None (purchases d)) in
  let previousMonth :=
    Month.group (match_period user previousMonthStart (Some previousMonthEnd)
                              (purchases d)) in
  let current := Month.first_or_zero currentMonth in
  let previous := Month.first_or_zero previousMonth in
  let revenueGrowth := growth (Month.revenue current) (Month.revenue previous) in
  let transactionGrowth :=
    growth (Month.transactions current) (Month.transactions previous) in
  Comparison.mk current previous revenueGrowth transactionGrowth.

(** ** Notions the statements below use *)

(** An item with its [totalPrice] recomputed. *)
Definition recompute (i : Item.t) : Item.t :=
  Item.set_totalPrice (Item.quantity i * Item.unitPrice i) i.

(** The sum of [quantity * unitPrice] over the items. *)
Definition sum_items (its : list Item.t) : Z :=
  foldr (λ i acc, Item.quantity i * Item.unitPrice i + acc) 0 its.

(** The latest [purchaseDate] of a list of purchases, if there is one. *)
Definition latest_purchaseDate (docs : list Purchase.t) : option Z :=
  foldr (λ p acc, match acc with
                  | Some t => Some (Z.max (Purchase.purchaseDate p) t)
                  | None => Some (Purchase.purchaseDate p)
                  end) None docs.

(** The stored aggregates of the customer [cid] agree with the fold over the
    purchases that refer to it. *)
Definition aggregates_agree (cid : nat) (d : db) : Prop :=
  ∀ c, customers d !! cid = Some c →
    Customer.totalPurchases c = Stats.count (match_customer cid (purchases d))
    ∧ Customer.totalSpent c = Stats.sum_totalAmount (match_customer cid (purchases d))
    ∧ Customer.lastPurchaseDate c = latest_purchaseDate (match_customer cid (purchases d)).

(** The derived fields of a purchase agree with its items and [paidAmount]:
    every item carries [quantity * unitPrice] and [remainingAmount] is
    [totalAmount - paidAmount]. *)
Definition derived_fields_agree (p : Purchase.t) : Prop :=
  Purchase.items p = recompute <$> Purchase.items p
  ∧ Purchase.remainingAmount p = Js.sub (Purchase.totalAmount p) (Purchase.paidAmount p).

(** The handler fails with a 404 error, not a 403 one, and leaves the
    database alone. *)
Definition fails_not_found {A} (d : db) (r : db * reply A) : Prop :=
  ∃ e, r = (d, Next e) ∧ NotFoundError e ∧ ¬ ForbiddenError e.

(** The exact growth percentage [(current - previous) / previous * 100]. *)
Definition exact_growth (current previous : Z) : Q :=
  (((inject_Z current - inject_Z previous) / inject_Z previous) * 100)%Q.

(** [g] is [x] rounded to two decimals: a multiple of 0.01 at most 0.005
    away from [x]. *)
Definition rounded_to_cents (g x : Q) : Prop :=
  ∃ n : Z, g = n # 100 ∧ (Qabs (g - x) <= 1 # 200)%Q.

(** ** Sample data *)

Module Sample.

Definition shop : nat := 1%nat.
Definition other_shop : nat := 2%nat.

Definition pen : Item.t := Item.mk "pen" 2 5 (Some 10).

(** A purchase of 100, nothing paid yet, no due date. *)
Definition unpaid (s : paymentStatus_t) : Purchase.t :=
  Purchase.mk 7 [] (Some 100) s cash 1000 None 0 (Some 100) shop.

(** A cancelled purchase of 100 that has been paid in full. *)
Definition cancelled_paid : Purchase.t :=
  Purchase.mk 7 [] (Some 100) cancelled cash 1000 None 100 (Some 0) shop.

(** A cancelled purchase of 100, nothing paid, due at time 2000. *)
Definition cancelled_due : Purchase.t :=
  Purchase.mk 7 [] (Some 100) cancelled cash 1000 (Some 2000) 0 (Some 100) shop.

(** A purchase overpaid by 50. *)
Definition overpaid : Purchase.t :=
  Purchase.mk 7 [] (Some 100) pending cash 1000 None 150 (Some 0) shop.

(** The body of a request that sells two pens and sets the total to 0. *)
Definition free_pens : Body.t :=
  Body.mk (Some 7%nat) (Some [pen]) (Some 0) None None None None None None.

(** The same sale with the total set to 8. *)
Definition discounted_pens : Body.t :=
  Body.mk (Some 7%nat) (Some [pen]) (Some 8) None None None None None None.

(** Two pens with a wrong [totalPrice] of 999 from the caller. *)
Definition mispriced_pen : Item.t := Item.mk "pen" 2 5 (Some 999).

(** The sale of the mispriced pens with the total set to 0, and with the
    total set to 8. *)
Definition mispriced_free : Body.t :=
  Body.mk (Some 7%nat) (Some [mispriced_pen]) (Some 0) None None None None None None.

Definition mispriced_discounted : Body.t :=
  Body.mk (Some 7%nat) (Some [mispriced_pen]) (Some 8) None None None None None None.

(** The sale of two pens without a total. *)
Definition no_total : Body.t :=
  Body.mk (Some 7%nat) (Some [pen]) None None None None None None None.

(** A body with a negative payment. *)
Definition pay_minus_1 : Body.t :=
  Body.mk None None None None None None None (Some (-1)) None.

(** Customer 7 of the shop, with the aggregates of one purchase of 100. *)
Definition alice : Customer.t := Customer.mk 1 100 (Some 1000) true shop.

(** A customer of the shop without purchases. *)
Definition bob : Customer.t := Customer.mk 0 0 None true shop.

(** The shop's database: alice with her one purchase, under [_id] 10, and
    bob. *)
Definition db0 : db :=
  mkdb (<[7%nat := alice]> (<[8%nat := bob]> ∅)) (<[10%nat := unpaid pending]> ∅).

(** A body that records a payment of 100. *)
Definition pay_100 : Body.t :=
  Body.mk None None None None None None None (Some 100) None.

(** A body that raises the total to 250. *)
Definition total_250 : Body.t :=
  Body.mk None None (Some 250) None None None None None None.

(** A shop whose only purchases are one of 300 in the previous month (time
    100) and one of 400 in the current month (time 1000). *)
Definition db1 : db :=
  mkdb (<[7%nat := alice]> ∅)
       (<[10%nat := Purchase.mk 7 [] (Some 300) pending cash 100 None 0 (Some 300) shop]>
          (<[11%nat := Purchase.mk 7 [] (Some 400) pending cash 1000 None 0 (Some 400) shop]> ∅)).

End Sample.

(** ** utils/database.js: the seeder's last loop *)

(** [for (const customer of createdCustomers) await customer.updatePurchaseStats()],
    over the documents [insertMany] returned, each with its [_id]. *)
Definition update_all_stats (createdCustomers : list (nat * Customer.t)) (d : db)
  : db :=
  foldl (λ d '(cid, customer), updatePurchaseStats cid customer d) d createdCustomers.

(** ** Notions for the statements about the hook *)

(** Two items describe the same sale: the fields the hook reads agree. *)
Definition same_sale (i j : Item.t) : Prop :=
  Item.productName i = Item.productName j
  ∧ Item.quantity i = Item.quantity j
  ∧ Item.unitPrice i = Item.unitPrice j.

(** ** routes/purchaseRoutes.js: the lists of open payments *)

(** [sum + x] where [x] may be [NaN]. *)
Definition js_add (sum x : option Z) : option Z :=
  match sum, x with
  | Some a, Some b => Some (a + b)
  | _, _ => None
  end.

(** [list.reduce((sum, purchase) => sum + purchase.remainingAmount, 0)]. *)
Definition reduce_remainingAmount (l : list Purchase.t) : option Z :=
  foldl (λ sum purchase, js_add sum (Purchase.remainingAmount purchase)) (Some 0) l.

(** [.sort(...)] with the order [leb].  MongoDB leaves the order of ties
    open, and it may differ from one query to the next; here they come out
    as the merge sort leaves them.  What is stated of a sorted answer is
    therefore either independent of the order of ties or assumes that the
    sort keys are distinct. *)
Definition sort_by {A} (leb : A → A → bool) (l : list A) : list A :=
  @merge_sort A (λ x y, leb x y = true) (λ x y, decide (leb x y = true)) l.

(** Ascending [dueDate]: a purchase without due date sorts first. *)
Definition dueDate_leb (p q : Purchase.t) : bool :=
  match Purchase.dueDate p, Purchase.dueDate q with
  | None, _ => true
  | Some _, None => false
  | Some a, Some b => a <=? b
  end.

(** [{ dueDate: 1, purchaseDate: -1 }]. *)
Definition dueDate_then_latest_leb (p q : Purchase.t) : bool :=
  if decide (Purchase.dueDate p = Purchase.dueDate q)
  then Purchase.purchaseDate q <=? Purchase.purchaseDate p
  else dueDate_leb p q.

(** [{ purchaseDate: -1 }]. *)
Definition latest_first_leb (p q : Purchase.t) : bool :=
  Purchase.purchaseDate q <=? Purchase.purchaseDate p.

(** The filter of [getPendingPayments]:
    [{ createdBy, paymentStatus: { $in: ['pending', 'overdue'] },
       remainingAmount: { $gt: 0 } }]. *)
Definition pending_filter (user : nat) (p : Purchase.t) : bool :=
  bool_decide (Purchase.createdBy p = user)
  && (bool_decide (Purchase.paymentStatus p = pending)
      || bool_decide (Purchase.paymentStatus p = overdue))
  && Js.gt0 (Purchase.remainingAmount p).

(** The filter of [getOverduePayments] at the time [now]:
    [{ createdBy, dueDate: { $lt: now }, remainingAmount: { $gt: 0 } }];
    a purchase without due date does not match [$lt]. *)
Definition overdue_filter (now : Z) (user : nat) (p : Purchase.t) : bool :=
  bool_decide (Purchase.createdBy p = user)
  && Js.after now (Purchase.dueDate p)
  && Js.gt0 (Purchase.remainingAmount p).

(** [Purchase.find(filter)]. *)
Definition find_purchases (f : Purchase.t → bool) (ps : gmap nat Purchase.t)
  : list Purchase.t :=
  filter (λ p, f p = true) (documents ps).

Module Listing.

(** The reply of the two lists: [results], [data.purchases] and the total
    ([totalPendingAmount], [totalOverdueAmount]). *)
Record t := mk {
  results : Z;
  purchases : list Purchase.t;
  totalAmount : option Z
}.

End Listing.

(** [GET /api/purchases/pending]. *)
Definition getPendingPayments (user : nat) (d : db) : Listing.t :=
  let pendingPurchases :=
    sort_by dueDate_then_latest_leb (find_purchases (pending_filter user) (purchases d)) in
  let totalPending := reduce_remainingAmount pendingPurchases in
  Listing.mk (Z.of_nat (length pendingPurchases)) pendingPurchases totalPending.

(** [GET /api/purchases/overdue]. *)
Definition getOverduePayments (now : Z) (user : nat) (d : db) : Listing.t :=
  let overduePurchases :=
    sort_by dueDate_leb (find_purchases (overdue_filter now user) (purchases d)) in
  let totalOverdue := reduce_remainingAmount overduePurchases in
  Listing.mk (Z.of_nat (length overduePurchases)) overduePurchases totalOverdue.

(** ** routes/purchaseRoutes.js: [getDailySummary] *)

Module Daily.

(** A row of the [$group] stage, also the shape of the summary. *)
Record t := mk {
  totalSales : Z;
  totalPaid : Z;
  totalPending : Z;
  transactionCount : Z;
  completedPayments : Z;
  pendingPayments : Z
}.

Definition zero : t := mk 0 0 0 0 0 0.

(** [{ $sum: '$remainingAmount' }]; a document without a numeric
    [remainingAmount] adds nothing. *)
Definition sum_remainingAmount (docs : list Purchase.t) : Z :=
  foldr (λ p acc, default 0 (Purchase.remainingAmount p) + acc) 0 docs.

(** [{ $sum: { $cond: [{ $eq: ['$paymentStatus', s] }, 1, 0] } }]. *)
Definition count_status (s : paymentStatus_t) (docs : list Purchase.t) : Z :=
  foldr (λ p acc, (if decide (Purchase.paymentStatus p = s) then 1 else 0) + acc) 0 docs.

Definition group (docs : list Purchase.t) : list t :=
  match docs with
  | [] => []
  | _ :: _ =>
      [mk (Stats.sum_totalAmount docs) (Month.sum_paidAmount docs)
          (sum_remainingAmount docs) (Stats.count docs)
          (count_status completed docs) (count_status pending docs)]
  end.

End Daily.

(** [GET /api/purchases/daily-summary]; [startOfDay] and [endOfDay] are the
    two ends of the target day, which the handler gets from [setHours]. *)
Definition getDailySummary (user : nat) (startOfDay endOfDay : Z) (d : db) : Daily.t :=
  let dailyStats :=
    Daily.group (match_period user startOfDay (Some endOfDay) (purchases d)) in
  match dailyStats with
  | summary :: _ => summary
  | [] => Daily.zero
  end.

(** ** routes/dashboardRoutes.js: the overview, the distribution, the top
       customers *)

(** [Customer.countDocuments(filter)] and [Purchase.countDocuments(filter)]. *)
Definition countDocuments {A} (f : A → bool) (m : gmap nat A) : Z :=
  Z.of_nat (length (filter (λ x, f x = true) (documents m))).

(** [{ createdBy: user }]. *)
Definition of_shop (user : nat) (p : Purchase.t) : bool :=
  bool_decide (Purchase.createdBy p = user).

Definition customer_of_shop (user : nat) (c : Customer.t) : bool :=
  bool_decide (Customer.createdBy c = user).

(** [{ createdBy: user, isActive: true }]. *)
Definition active_customer_of_shop (user : nat) (c : Customer.t) : bool :=
  bool_decide (Customer.createdBy c = user) && Customer.isActive c.

(** [{ createdBy: user, paymentStatus: 'pending', remainingAmount: { $gt: 0 } }]. *)
Definition pending_only_filter (user : nat) (p : Purchase.t) : bool :=
  bool_decide (Purchase.createdBy p = user)
  && bool_decide (Purchase.paymentStatus p = pending)
  && Js.gt0 (Purchase.remainingAmount p).

Module Revenue.

(** A row of the overview's [$group] stage. *)
Record t := mk {
  totalRevenue : Z;
  totalPaid : Z;
  totalPending : Z
}.

Definition zero : t := mk 0 0 0.

Definition group (docs : list Purchase.t) : list t :=
  match docs with
  | [] => []
  | _ :: _ =>
      [mk (Stats.sum_totalAmount docs) (Month.sum_paidAmount docs)
          (Daily.sum_remainingAmount docs)]
  end.

End Revenue.

Module Overview.

(** The [data] of the overview, field by field:
    [customers.{total,active,inactive}],
    [purchases.{total,today,thisWeek,thisMonth}],
    [payments.pending.{count,amount}], [payments.overdue.{count,amount}],
    [revenue.{total,collected,pending,collectionRate}]. *)
Record t := mk {
  customers_total : Z;
  customers_active : Z;
  customers_inactive : Z;
  purchases_total : Z;
  purchases_today : Z;
  purchases_thisWeek : Z;
  purchases_thisMonth : Z;
  pending_count : Z;
  pending_amount : option Z;
  overdue_count : Z;
  overdue_amount : option Z;
  revenue_total : Z;
  revenue_collected : Z;
  revenue_pending : Z;
  collectionRate : Q
}.

End Overview.

(** [totalRevenue > 0 ? ((totalPaid / totalRevenue) * 100).toFixed(2) : 0],
    as the number the string denotes. *)
Definition collection_rate (totalPaid totalRevenue : Z) : Q :=
  if 0 <? totalRevenue then
    toFixed 2 ((inject_Z totalPaid / inject_Z totalRevenue) * 100)%Q
  else 0%Q.

(** [GET /api/dashboard/overview].  [today] is [new Date()]; the starts of
    the day, the week and the month are computed from it by calendar
    arithmetic and come in as arguments. *)
Definition getDashboardOverview (user : nat)
    (today startOfToday startOfWeek startOfMonth : Z) (d : db) : Overview.t :=
  let totalCustomers := countDocuments (customer_of_shop user) (customers d) in
  let activeCustomers := countDocuments (active_customer_of_shop user) (customers d) in
  let totalPurchases := countDocuments (of_shop user) (purchases d) in
  let todayPurchases := countDocuments (in_period user startOfToday None) (purchases d) in
  let weeklyPurchases := countDocuments (in_period user startOfWeek None) (purchases d) in
  let monthlyPurchases := countDocuments (in_period user startOfMonth None) (purchases d) in
  let pendingPayments := find_purchases (pending_only_filter user) (purchases d) in
  let overduePayments := find_purchases (overdue_filter today user) (purchases d) in
  let revenueStats := Revenue.group (find_purchases (of_shop user) (purchases d)) in
  let totalPendingAmount := reduce_remainingAmount pendingPayments in
  let totalOverdueAmount := reduce_remainingAmount overduePayments in
  let revenue := match revenueStats with r :: _ => r | [] => Revenue.zero end in
  Overview.mk
    totalCustomers activeCustomers (totalCustomers - activeCustomers)
    totalPurchases todayPurchases weeklyPurchases monthlyPurchases
    (Z.of_nat (length pendingPayments)) totalPendingAmount
    (Z.of_nat (length overduePayments)) totalOverdueAmount
    (Revenue.totalRevenue revenue) (Revenue.totalPaid revenue)
    (Revenue.totalPending revenue)
    (collection_rate (Revenue.totalPaid revenue) (Revenue.totalRevenue revenue)).

Module Distribution.

(** A row of [getPurchaseStatusDistribution]: [_id] is the status. *)
Record t := mk {
  _id : paymentStatus_t;
  count : Z;
  totalAmount : Z
}.

End Distribution.

(** The group of one status: a row if some document has it. *)
Definition status_group (docs : list Purchase.t) (s : paymentStatus_t)
  : list Distribution.t :=
  match filter (λ p, Purchase.paymentStatus p = s) docs with
  | [] => []
  | g => [Distribution.mk s (Stats.count g) (Stats.sum_totalAmount g)]
  end.

(** [GET /api/dashboard/purchase-status]: [$group] by [paymentStatus].
    MongoDB fixes no order of the rows; here they come in the order of the
    schema's [enum]. *)
Definition getPurchaseStatusDistribution (user : nat) (d : db) : list Distribution.t :=
  let docs := find_purchases (of_shop user) (purchases d) in
  status_group docs pending ++ status_group docs completed
  ++ status_group docs overdue ++ status_group docs cancelled.

(** [.limit(n)]: 0 means no limit, and a negative [n] limits like [-n]. *)
Definition mongo_limit {A} (n : Z) (l : list A) : list A :=
  if n =? 0 then l else take (Z.to_nat (Z.abs n)) l.

Module TopCustomer.

(** What [.select('name email totalSpent totalPurchases lastPurchaseDate')]
    keeps of a customer, with its [_id]. *)
Record t := mk {
  _id : nat;
  totalSpent : Z;
  totalPurchases : Z;
  lastPurchaseDate : option Z
}.

Definition select (x : nat * Customer.t) : t :=
  mk x.1 (Customer.totalSpent x.2) (Customer.totalPurchases x.2)
     (Customer.lastPurchaseDate x.2).

(** [{ totalSpent: -1 }]. *)
Definition leb (x y : nat * Customer.t) : bool :=
  Customer.totalSpent y.2 <=? Customer.totalSpent x.2.

End TopCustomer.

(** [GET /api/dashboard/top-customers]; [limit] is [parseInt(limit)], 10
    when the query has none. *)
Definition getTopCustomers (user : nat) (limit : Z) (d : db) : list TopCustomer.t :=
  TopCustomer.select <$>
    mongo_limit limit
      (sort_by TopCustomer.leb
         (filter (λ x, customer_of_shop user x.2 = true) (map_to_list (customers d)))).

(** The sums of the rows' [count] and of their [totalAmount]. *)
Definition sum_counts (rows : list Distribution.t) : Z :=
  foldr (λ r acc, Distribution.count r + acc) 0 rows.

(** ** routes/customerRoutes.js: the other customer routes *)

(** [GET /api/customers/:id]. *)
Definition getCustomer (user id : nat) (d : db) : db * reply Customer.t :=
  match findOne_customer id user (customers d) with
  | None => (d, customer_not_found)
  | Some customer => (d, Sent 200 customer)
  end.

(** [.skip(n)]: MongoDB rejects a negative [n]. *)
Definition mongo_skip {A} (n : Z) (l : list A) : option (list A) :=
  if n <? 0 then None else Some (drop (Z.to_nat n) l).

(** [Math.ceil(a / b)] on integers; [None] when [b] is 0 and the quotient
    is [Infinity] or [NaN]. *)
Definition ceil_div (a b : Z) : option Z :=
  if b =? 0 then None else Some (- ((- a) / b)).

Module Page.

(** The reply of [getCustomerPurchases]: [results], the [pagination] block
    and [data.purchases]. *)
Record t := mk {
  results : Z;
  currentPage : Z;
  totalPages : option Z;
  totalResults : Z;
  purchases : list Purchase.t
}.

End Page.

(** [GET /api/customers/:id/purchases].  [page] and [limit] are the integers
    the query strings denote (1 and 10 when absent).  The result is [None]
    when the database rejects the query; that error reaches [next] without
    a [statusCode]. *)
Definition getCustomerPurchases (user id : nat) (page limit : Z) (d : db)
  : option (reply Page.t) :=
  match findOne_customer id user (customers d) with
  | None => Some customer_not_found
  | Some customer =>
      let sorted := sort_by latest_first_leb (match_customer id (purchases d)) in
      match mongo_skip ((page - 1) * limit) sorted with
      | None => None
      | Some skipped =>
          let found := mongo_limit limit skipped in
          let totalPurchases := Stats.count (match_customer id (purchases d)) in
          Some (Sent 200
                  (Page.mk (Z.of_nat (length found)) page
                           (ceil_div totalPurchases limit) totalPurchases found))
      end
  end.

(** [{ $lt: ['$$this.dueDate', now] }] in an aggregation expression: values
    of different types compare by BSON order, in which a missing or null
    date is below every date. *)
Definition agg_dueDate_lt (now : Z) (p : Purchase.t) : bool :=
  match Purchase.dueDate p with
  | None => true
  | Some t => t <? now
  end.

Module OverdueCustomer.

(** A row of [getOverdueCustomers], without [name], [email] and [phone]. *)
Record t := mk {
  _id : nat;
  overduePurchases : list Purchase.t
}.

End OverdueCustomer.

(** [GET /api/customers/overdue].  The pipeline reads the clock twice:
    [now1] in the [$elemMatch] of the second [$match], [now2] in the
    [$filter] of the [$project]. *)
Definition getOverdueCustomers (now1 now2 : Z) (user : nat) (d : db)
  : list OverdueCustomer.t :=
  let own := filter (λ x, customer_of_shop user x.2 = true) (map_to_list (customers d)) in
  let looked_up := (λ x, (x.1, match_customer x.1 (purchases d))) <$> own in
  let matched :=
    filter (λ x, existsb (λ p, Js.after now1 (Purchase.dueDate p)
                               && Js.gt0 (Purchase.remainingAmount p)) x.2 = true)
           looked_up in
  (λ x, OverdueCustomer.mk x.1
          (filter (λ p, (agg_dueDate_lt now2 p
                         && Js.gt0 (Purchase.remainingAmount p)) = true) x.2))
  <$> matched.

(** ** middleware/authMiddleware.js *)

Module User.

(** [req.user], as far as the two middlewares below read it. *)
Record t := mk {
  _id : nat;
  role : string
}.

End User.

(** [restrictTo(...roles)]: [None] stands for [next()]. *)
Definition restrictTo (roles : list string) (user : User.t) : option error :=
  if decide (User.role user ∈ roles) then None
  else Some (HttpError 403 "You do not have permission to perform this action").

(** [checkOwnership(resourceModel, resourceField)] for the model whose
    [findById] is given; [None] stands for [next()]. *)
Definition checkOwnership {A} (findById : nat → option A) (resourceField : A → nat)
    (user : User.t) (id : nat) : option error :=
  match findById id with
  | None => Some (HttpError 404 "Resource not found")
  | Some resource =>
      if decide (User.role user = "owner"%string) then None
      else if decide (resourceField resource ≠ User._id user)
           then Some (HttpError 403 "You can only access your own data")
           else None
  end.

(** The purchases a reply of [getCustomerPurchases] carries; none when
    there is no page. *)
Definition page_purchases (r : option (reply Page.t)) : list Purchase.t :=
  match r with
  | Some (Sent _ pg) => Page.purchases pg
  | _ => []
  end.

(** ** utils/database.js: one sample purchase *)

(** The seeder's table of products: name and price. *)
Definition products : list (string * Z) :=
  [ (String.append "LED TV 43" (String (Ascii.ascii_of_nat 34) EmptyString), 35000);
    ("Smartphone"%string, 15000);
    ("Laptop"%string, 45000);
    ("Washing Machine"%string, 25000);
    ("Refrigerator"%string, 30000);
    ("Air Conditioner"%string, 40000);
    ("Microwave Oven"%string, 12000);
    ("Headphones"%string, 2000);
    ("Tablet"%string, 20000);
    ("Smart Watch"%string, 8000) ].

(** The body of the inner loop of [generateSamplePurchases], for one
    purchase.  What the code draws with [Math.random()] comes in as
    arguments: the [product] (name and price), the [quantity], whether the
    purchase is paid in full ([Math.random() > 0.3]) and the payment method;
    so do the dates the code computes with [setDate]: the [purchaseDate] and
    [due], 30 days after it.  [now] is the [new Date()] the status is
    decided with.  [Math.floor(totalAmount * 0.5)] is the quotient by 2. *)
Definition generateSamplePurchase (customer userId : nat) (product : string * Z)
    (quantity : Z) (paidInFull : bool) (purchaseDate due now : Z)
    (method : paymentMethod_t) : Purchase.t :=
  let totalAmount := product.2 * quantity in
  let paidAmount := if paidInFull then totalAmount else totalAmount / 2 in
  let remainingAmount := totalAmount - paidAmount in
  let dueDate := if 0 <? remainingAmount then Some due else None in
  let paymentStatus :=
    if 0 <? remainingAmount then (if due <? now then overdue else pending)
    else completed in
  Purchase.mk customer
    [Item.mk product.1 quantity product.2 (Some totalAmount)]
    (Some totalAmount) paymentStatus method purchaseDate dueDate paidAmount
    (Some remainingAmount) userId.

(** * The sample documents pass the schema's validators *)

Example sample_purchases_valid :
  (∀ s, Purchase.valid (Sample.unpaid s) = true)
  ∧ Purchase.valid Sample.cancelled_paid = true
  ∧ Purchase.valid Sample.cancelled_due = true
  ∧ Purchase.valid Sample.overpaid = true
  ∧ Purchase.valid (new_purchase 1000 7 Sample.shop Sample.free_pens) = true
  ∧ Purchase.valid (new_purchase 1000 7 Sample.shop Sample.discounted_pens) = true
  ∧ Purchase.valid (new_purchase 1000 7 Sample.shop Sample.mispriced_free) = true
  ∧ Purchase.valid (new_purchase 1000 7 Sample.shop Sample.mispriced_discounted) = true
  ∧ forallb Purchase.valid (documents (purchases Sample.db0)) = true
  ∧ forallb Purchase.valid (documents (purchases Sample.db1)) = true.
Proof. repeat split; by vm_compute. Qed.

(** * Money derivation: the [pre('save')] hook *)

Section Derivation.

Implicit Types (p : Purchase.t) (its : list Item.t) (now acc : Z).

Lemma forEach_item_spec its acc :
  Purchase.forEach_item its acc = (recompute <$> its, acc + sum_items its).
Proof.
  revert acc. induction its as [|i rest IH]; intros acc; csimpl.
  - f_equal. lia.
  - rewrite IH. unfold recompute. f_equal. lia.
Qed.

Lemma recompute_idemp (i : Item.t) : recompute (recompute i) = recompute i.
Proof. by destruct i. Qed.

Lemma recompute_all_idemp its : recompute <$> (recompute <$> its) = recompute <$> its.
Proof.
  induction its as [|i rest IH]; csimpl; [done|].
  by rewrite recompute_idemp, IH.
Qed.


Lemma sum_items_recompute its : sum_items (recompute <$> its) = sum_items its.
Proof. induction its as [|i rest IH]; csimpl; [done|]. by rewrite IH. Qed.

(** What the first block of the hook leaves in [items] and [totalAmount]. *)
Lemma calculate_total_items p :
  Purchase.items (Purchase.calculate_total p) = recompute <$> Purchase.items p.
Proof.
  unfold Purchase.calculate_total.
  destruct (Purchase.items p) as [|i rest] eqn:E; [by rewrite E|].
  rewrite forEach_item_spec. simpl.
  by destruct (Js.falsy (Purchase.totalAmount p)).
Qed.

Lemma calculate_total_totalAmount p :
  Purchase.totalAmount (Purchase.calculate_total p) =
    match Purchase.items p with
    | [] => Purchase.totalAmount p
    | _ :: _ =>
        if Js.falsy (Purchase.totalAmount p)
        then Some (sum_items (Purchase.items p))
        else Purchase.totalAmount p
    end.
Proof.
  unfold Purchase.calculate_total.
  destruct (Purchase.items p) as [|i rest] eqn:E; [done|].
  rewrite forEach_item_spec. simpl.
  by destruct (Js.falsy (Purchase.totalAmount p)).
Qed.

(** The fields the first block does not touch. *)
Lemma calculate_total_frame p :
  let q := Purchase.calculate_total p in
  Purchase.customer q = Purchase.customer p
  ∧ Purchase.paymentStatus q = Purchase.paymentStatus p
  ∧ Purchase.paymentMethod q = Purchase.paymentMethod p
  ∧ Purchase.purchaseDate q = Purchase.purchaseDate p
  ∧ Purchase.dueDate q = Purchase.dueDate p
  ∧ Purchase.paidAmount q = Purchase.paidAmount p
  ∧ Purchase.remainingAmount q = Purchase.remainingAmount p
  ∧ Purchase.createdBy q = Purchase.createdBy p.
Proof.
  unfold Purchase.calculate_total.
  destruct (Purchase.items p) as [|i rest] eqn:E; [done|].
  rewrite forEach_item_spec. simpl.
  by destruct (Js.falsy (Purchase.totalAmount p)).
Qed.

(** The hook, field by field. *)
Lemma pre_save_fields now p :
  let q := Purchase.pre_save now p in
  let r := Js.sub (Purchase.totalAmount (Purchase.calculate_total p))
                  (Purchase.paidAmount p) in
  Purchase.customer q = Purchase.customer p
  ∧ Purchase.items q = recompute <$> Purchase.items p
  ∧ Purchase.totalAmount q = Purchase.totalAmount (Purchase.calculate_total p)
  ∧ Purchase.paymentStatus q =
      (if Js.le0 r then completed
       else if Js.after now (Purchase.dueDate p) then overdue
       else Purchase.paymentStatus p)
  ∧ Purchase.paymentMethod q = Purchase.paymentMethod p
  ∧ Purchase.purchaseDate q = Purchase.purchaseDate p
  ∧ Purchase.dueDate q = Purchase.dueDate p
  ∧ Purchase.paidAmount q = Purchase.paidAmount p
  ∧ Purchase.remainingAmount q = r
  ∧ Purchase.createdBy q = Purchase.createdBy p.
Proof.
  intros q r. subst q r. unfold Purchase.pre_save, Purchase.update_status.
  pose proof (calculate_total_frame p) as (Hc & Hs & Hm & Hd & Hdue & Hpaid & _ & Hby).
  pose proof (calculate_total_items p) as Hits.
  simpl in *. rewrite Hpaid, Hdue.
  destruct (Js.le0 _); [|destruct (Js.after _ _)]; simpl; repeat split; done.
Qed.

Lemma purchase_eq p q :
  Purchase.customer p = Purchase.customer q →
  Purchase.items p = Purchase.items q →
  Purchase.totalAmount p = Purchase.totalAmount q →
  Purchase.paymentStatus p = Purchase.paymentStatus q →
  Purchase.paymentMethod p = Purchase.paymentMethod q →
  Purchase.purchaseDate p = Purchase.purchaseDate q →
  Purchase.dueDate p = Purchase.dueDate q →
  Purchase.paidAmount p = Purchase.paidAmount q →
  Purchase.remainingAmount p = Purchase.remainingAmount q →
  Purchase.createdBy p = Purchase.createdBy q →
  p = q.
Proof. destruct p, q; simpl; intros; by subst. Qed.

(** Running the first block again changes nothing. *)
Lemma calculate_total_again now p :
  Purchase.totalAmount (Purchase.calculate_total (Purchase.pre_save now p))
  = Purchase.totalAmount (Purchase.calculate_total p).
Proof.
  pose proof (pre_save_fields now p) as (_ & Hits & Htot & _).
  simpl in *. rewrite calculate_total_totalAmount, Hits, Htot.
  rewrite calculate_total_totalAmount.
  destruct (Purchase.items p) as [|i rest] eqn:E; simpl; [done|].
  fold (sum_items (recompute <$> rest)). rewrite sum_items_recompute.
  destruct (Js.falsy (Purchase.totalAmount p)) eqn:F; simpl.
  - by destruct (_ =? 0).
  - by rewrite F.
Qed.

End Derivation.

(** ** Status derivation *)

(** C2, as the code has it: the hook has no test for [cancelled].  A
    cancelled purchase keeps its status exactly when, after the amounts are
    recomputed, [remainingAmount <= 0] is false and the due date is absent
    or not yet passed; otherwise the hook overwrites [cancelled] with
    [completed] or [overdue]. *)
Theorem cancelled_kept_iff (now : Z) (p : Purchase.t) :
  Purchase.paymentStatus p = cancelled →
  Purchase.paymentStatus (Purchase.pre_save now p) = cancelled
  ↔ Js.le0 (Purchase.remainingAmount (Purchase.pre_save now p)) = false
    ∧ ∀ due, Purchase.dueDate p = Some due → now ≤ due.
Proof.
  intros Hc.
  pose proof (pre_save_fields now p) as (_ & _ & _ & Hs & _ & _ & _ & _ & Hr & _).
  simpl in Hs, Hr. rewrite Hs, Hr, Hc. clear Hs Hr.
  destruct (Js.le0 _).
  { split; [discriminate | intros [H _]; discriminate H]. }
  destruct (Purchase.dueDate p) as [due|]; simpl.
  - destruct (Z.ltb_spec due now).
    + split; [discriminate|]. intros [_ H']. specialize (H' due eq_refl). lia.
    + split; [|done]. intros _. split; [done|]. intros ? [= <-]. lia.
  - split; [|done]. intros _. split; [done|]. intros ? [=].
Qed.

Lemma cancelled_kept_iff_witness :
  Purchase.paymentStatus (Purchase.pre_save 1500 Sample.cancelled_due) = cancelled.
Proof.
  apply (cancelled_kept_iff 1500 Sample.cancelled_due); [reflexivity|].
  split; [reflexivity|]. intros due [= <-]. lia.
Defined.

(** C2, as stated, fails: a cancelled purchase that is paid in full comes
    out of the hook as [completed]. *)
Lemma cancelled_overwritten_when_paid :
  Purchase.paymentStatus Sample.cancelled_paid = cancelled
  ∧ Purchase.paymentStatus (Purchase.pre_save 0 Sample.cancelled_paid) ≠ cancelled.
Proof. split; [reflexivity|]. vm_compute. discriminate. Qed.

(** A cancelled purchase with an open balance goes to [overdue] once its due
    date has passed. *)
Lemma cancelled_overwritten_when_late :
  Purchase.paymentStatus (Purchase.pre_save 2001 Sample.cancelled_due) = overdue.
Proof. reflexivity. Qed.

(** C3, as the code has it: [remainingAmount <= 0] gives [completed];
    otherwise a due date strictly before [now] gives [overdue]; otherwise
    the status is left as it was (the hook has no final [else]), so it is
    [pending] only if it was [pending] before, as on a purchase created
    without a status. *)
Theorem pre_save_status (now : Z) (p : Purchase.t) :
  let q := Purchase.pre_save now p in
  (Js.le0 (Purchase.remainingAmount q) = true → Purchase.paymentStatus q = completed)
  ∧ (Js.le0 (Purchase.remainingAmount q) = false →
     ∀ due, Purchase.dueDate q = Some due → due < now →
     Purchase.paymentStatus q = overdue)
  ∧ (Js.le0 (Purchase.remainingAmount q) = false →
     (∀ due, Purchase.dueDate q = Some due → now ≤ due) →
     Purchase.paymentStatus q = Purchase.paymentStatus p).
Proof.
  intros q. subst q.
  pose proof (pre_save_fields now p)
    as (_ & _ & _ & Hs & _ & _ & Hd & _ & Hr & _).
  simpl in Hs, Hr, Hd. rewrite Hs, Hr, Hd. clear Hs Hr Hd.
  destruct (Js.le0 _); (split; [|split]); try done.
  - intros _ due -> Hlt. simpl.
    by destruct (Z.ltb_spec due now); [|lia].
  - intros _ H. destruct (Purchase.dueDate p) as [due|]; simpl; [|done].
    specialize (H due eq_refl). by destruct (Z.ltb_spec due now); [lia|].
Qed.

Lemma pre_save_status_witness :
  Purchase.paymentStatus (Purchase.pre_save 0 Sample.cancelled_paid) = completed
  ∧ Purchase.paymentStatus (Purchase.pre_save 2001 Sample.cancelled_due) = overdue
  ∧ Purchase.paymentStatus (Purchase.pre_save 2000 (Sample.unpaid pending)) = pending.
Proof.
  split; [|split].
  - apply (pre_save_status 0 Sample.cancelled_paid). reflexivity.
  - apply (pre_save_status 2001 Sample.cancelled_due) with (due := 2000);
      [reflexivity | reflexivity | lia].
  - apply (pre_save_status 2000 (Sample.unpaid pending)); [reflexivity|].
    intros due H. discriminate H.
Defined.

(** C3, as stated, fails: a purchase marked [completed] whose balance is
    open again and that has no due date is not set back to [pending]. *)
Lemma completed_not_reset_to_pending :
  let p := Sample.unpaid completed in
  let q := Purchase.pre_save 5000 p in
  Purchase.paymentStatus p ≠ cancelled
  ∧ Purchase.remainingAmount q = Some 100
  ∧ Purchase.dueDate q = None
  ∧ Purchase.paymentStatus q ≠ pending.
Proof. vm_compute. repeat split; discriminate. Qed.

(** The virtual [isOverdue] is the strict three-part test. *)
Lemma isOverdue_iff (now : Z) (p : Purchase.t) :
  Purchase.isOverdue now p = true
  ↔ ∃ due r, Purchase.dueDate p = Some due
             ∧ Purchase.remainingAmount p = Some r
             ∧ 0 < r ∧ due < now.
Proof.
  unfold Purchase.isOverdue, Js.after, Js.gt0. split.
  - intros H. destruct (Purchase.dueDate p) as [due|]; [|done].
    destruct (Purchase.remainingAmount p) as [r|]; [|by rewrite andb_false_r in H].
    apply andb_true_iff in H as [H1%Z.ltb_lt H2%Z.ltb_lt].
    by exists due, r.
  - intros (due & r & -> & -> & Hr & Hd).
    apply andb_true_iff. by split; apply Z.ltb_lt.
Qed.

(** A purchase that [isOverdue] after the hook has status [overdue]. *)
Lemma isOverdue_pre_save (now : Z) (p : Purchase.t) :
  Purchase.isOverdue now (Purchase.pre_save now p) = true →
  Purchase.paymentStatus (Purchase.pre_save now p) = overdue.
Proof.
  intros (due & r & Hd & Hr & Hpos & Hlt)%isOverdue_iff.
  pose proof (pre_save_fields now p)
    as (_ & _ & _ & Hs & _ & _ & Hdue & _ & Hrem & _).
  simpl in Hs, Hdue, Hrem. rewrite Hs, <- Hrem, <- Hdue, Hr, Hd. simpl.
  destruct (Z.leb_spec r 0); [lia|]. by destruct (Z.ltb_spec due now); [|lia].
Qed.

(** ** Totals *)





(** ** Remaining amount and idempotence *)

Lemma pre_save_remainingAmount (now : Z) (p : Purchase.t) :
  Purchase.remainingAmount (Purchase.pre_save now p)
  = Js.sub (Purchase.totalAmount (Purchase.pre_save now p))
           (Purchase.paidAmount (Purchase.pre_save now p)).
Proof.
  pose proof (pre_save_fields now p) as (_ & _ & Htot & _ & _ & _ & _ & Hpaid & Hr & _).
  simpl in *. by rewrite Hr, Htot, Hpaid.
Qed.

(** C6: after the hook, a [totalAmount] that is a number [t] gives the
    balance [t - paidAmount], negative when more was paid, with no clamp at
    zero (and a missing total gives [NaN]); and running the hook again at
    the same [now] gives the same record. *)
Theorem pre_save_remaining_idempotent (now : Z) (p : Purchase.t) :
  let q := Purchase.pre_save now p in
  (∀ t, Purchase.totalAmount q = Some t →
        Purchase.remainingAmount q = Some (t - Purchase.paidAmount q))
  ∧ (Purchase.totalAmount q = None → Purchase.remainingAmount q = None)
  ∧ Purchase.pre_save now q = q.
Proof.
  intros q. subst q.
  pose proof (pre_save_fields now p)
    as (Hc & Hits & Htot & Hs & Hm & Hd & Hdue & Hpaid & Hr & Hby).
  pose proof (pre_save_fields now (Purchase.pre_save now p))
    as (Hc' & Hits' & Htot' & Hs' & Hm' & Hd' & Hdue' & Hpaid' & Hr' & Hby').
  simpl in *.
  split; [|split].
  - intros t Ht. rewrite Hr, <- Htot, Ht, Hpaid. reflexivity.
  - intros Ht. rewrite Hr, <- Htot, Ht. reflexivity.
  - rewrite calculate_total_again in Htot', Hs', Hr'.
    apply purchase_eq; try congruence.
    + by rewrite Hits', Hits, recompute_all_idemp.
    + rewrite Hs', Hpaid, Hdue, Hs.
      destruct (Js.le0 _); [done|]. by destruct (Js.after _ _).
Qed.

Lemma pre_save_remaining_idempotent_witness :
  Purchase.remainingAmount (Purchase.pre_save 0 Sample.overpaid) = Some (100 - 150)
  ∧ Purchase.remainingAmount
      (Purchase.pre_save 1000 (new_purchase 1000 7 Sample.shop Sample.mispriced_free))
    = Some (10 - 0).
Proof.
  split.
  - apply (pre_save_remaining_idempotent 0 Sample.overpaid). reflexivity.
  - apply (pre_save_remaining_idempotent 1000
             (new_purchase 1000 7 Sample.shop Sample.mispriced_free)).
    reflexivity.
Defined.

(** The stored balance of an overpaid purchase is negative. *)
Example overpaid_remaining_negative :
  Purchase.remainingAmount (Purchase.pre_save 0 Sample.overpaid) = Some (-50).
Proof. reflexivity. Qed.

(** * Customer aggregates *)

Section Aggregates.

Implicit Types (d : db) (c : Customer.t) (p : Purchase.t) (cid id : nat).

Lemma elem_of_documents {A} (m : gmap nat A) (x : A) :
  x ∈ documents m ↔ ∃ i, m !! i = Some x.
Proof.
  unfold documents. rewrite list_elem_of_fmap. split.
  - intros ([i y] & -> & H%elem_of_map_to_list). by exists i.
  - intros [i H]. exists (i, x). split; [done|]. by apply elem_of_map_to_list.
Qed.

Lemma elem_of_match_customer cid (ps : gmap nat Purchase.t) p :
  p ∈ match_customer cid ps ↔ Purchase.customer p = cid ∧ ∃ i, ps !! i = Some p.
Proof.
  unfold match_customer. by rewrite list_elem_of_filter, elem_of_documents.
Qed.

(** The customer has no purchase exactly when the [$match] stage lets
    nothing through. *)
Lemma match_customer_nil cid (ps : gmap nat Purchase.t) :
  match_customer cid ps = []
  ↔ ¬ ∃ i p, ps !! i = Some p ∧ Purchase.customer p = cid.
Proof.
  split.
  - intros E (i & p & Hi & Hc).
    assert (p ∈ match_customer cid ps) as H
      by (apply elem_of_match_customer; eauto).
    rewrite E in H. by apply not_elem_of_nil in H.
  - intros H. destruct (match_customer cid ps) as [|p l] eqn:E; [done|].
    exfalso. apply H.
    assert (p ∈ match_customer cid ps) as Hp by (rewrite E; left).
    apply elem_of_match_customer in Hp as [Hc [i Hi]]. eauto.
Qed.

Lemma count_pos_iff (docs : list Purchase.t) :
  (0 <? Stats.count docs) = true ↔ docs ≠ [].
Proof.
  unfold Stats.count. rewrite Z.ltb_lt.
  destruct docs; simpl; split; try done; lia.
Qed.

(** [$max] over a non-empty group is the latest purchase date. *)
Lemma max_purchaseDate_latest p (rest : list Purchase.t) :
  latest_purchaseDate (p :: rest) = Some (Stats.max_purchaseDate p rest).
Proof.
  revert p. induction rest as [|p' rest IH]; intros p; [done|].
  specialize (IH p) as IHp. specialize (IH p') as IHp'.
  simpl in *. rewrite IHp'.
  destruct (latest_purchaseDate rest) as [t|].
  - injection IHp as <-. injection IHp' as <-. f_equal. lia.
  - injection IHp as <-. injection IHp' as <-. f_equal. lia.
Qed.

(** The latest purchase date is the date of one of the purchases and no
    purchase is later. *)
Lemma latest_purchaseDate_max (docs : list Purchase.t) (t : Z) :
  latest_purchaseDate docs = Some t →
  (∃ p, p ∈ docs ∧ Purchase.purchaseDate p = t)
  ∧ ∀ p, p ∈ docs → Purchase.purchaseDate p ≤ t.
Proof.
  revert t. induction docs as [|p rest IH]; intros t; [done|].
  simpl. destruct (latest_purchaseDate rest) as [t'|] eqn:E.
  - intros [= <-]. destruct (IH t' eq_refl) as [(q & Hq & Hd) Hle]. split.
    + destruct (Z.max_spec (Purchase.purchaseDate p) t') as [[_ ->]|[_ ->]].
      * exists q. split; [by right|done].
      * exists p. split; [by left|done].
    + intros x [->|Hx]%elem_of_cons; [lia|]. specialize (Hle x Hx). lia.
  - intros [= <-]. destruct rest as [|q rest'].
    + split; [exists p; split; [by left|done]|].
      by intros x [->|Hx%not_elem_of_nil]%elem_of_cons.
    + simpl in E. by destruct (latest_purchaseDate rest').
Qed.

(** What [updatePurchaseStats] writes, by the two cases of
    [stats.length > 0]. *)
Lemma updatePurchaseStats_customers cid c d :
  customers (updatePurchaseStats cid c d) =
    <[cid :=
        match match_customer cid (purchases d) with
        | [] => c
        | docs =>
            Customer.set_stats (Stats.count docs) (Stats.sum_totalAmount docs)
                               (latest_purchaseDate docs) c
        end]> (customers d).
Proof.
  unfold updatePurchaseStats.
  destruct (match_customer cid (purchases d)) as [|p rest] eqn:E; [done|].
  simpl Stats.group. cbv iota. simpl customers.
  by rewrite max_purchaseDate_latest.
Qed.

Lemma updatePurchaseStats_purchases cid c d :
  purchases (updatePurchaseStats cid c d) = purchases d.
Proof. done. Qed.

(** After [updatePurchaseStats] on a customer that has a purchase, the
    stored aggregates are the fold. *)
Lemma updatePurchaseStats_agree cid c d :
  match_customer cid (purchases d) ≠ [] →
  aggregates_agree cid (updatePurchaseStats cid c d).
Proof.
  intros Hne c'. rewrite updatePurchaseStats_customers, lookup_insert_eq.
  rewrite updatePurchaseStats_purchases.
  destruct (match_customer cid (purchases d)) as [|p rest]; [done|].
  by intros [= <-].
Qed.

End Aggregates.

(** C10: when the aggregation returns no row, [updatePurchaseStats] saves
    the customer as it was, with [totalPurchases], [totalSpent] and
    [lastPurchaseDate] unchanged; when the customer has a purchase the three
    fields are overwritten with the count, the sum and the latest date, and
    nothing else changes. *)
Theorem updatePurchaseStats_empty_keeps (cid : nat) (c : Customer.t) (d : db) :
  (match_customer cid (purchases d) = [] →
   customers (updatePurchaseStats cid c d) !! cid = Some c)
  ∧ (match_customer cid (purchases d) ≠ [] →
     customers (updatePurchaseStats cid c d) !! cid =
       Some (Customer.mk (Stats.count (match_customer cid (purchases d)))
                         (Stats.sum_totalAmount (match_customer cid (purchases d)))
                         (latest_purchaseDate (match_customer cid (purchases d)))
                         (Customer.isActive c) (Customer.createdBy c))).
Proof.
  rewrite updatePurchaseStats_customers, lookup_insert_eq.
  split.
  - by intros ->.
  - intros Hne. by destruct (match_customer cid (purchases d)).
Qed.

Lemma updatePurchaseStats_empty_keeps_witness :
  customers (updatePurchaseStats 8 Sample.bob Sample.db0) !! 8%nat = Some Sample.bob
  ∧ customers (updatePurchaseStats 7 Sample.bob Sample.db0) !! 7%nat
    = Some (Customer.mk 1 100 (Some 1000) true Sample.shop).
Proof.
  split.
  - refine (proj1 (updatePurchaseStats_empty_keeps 8 Sample.bob Sample.db0) _).
    vm_compute. reflexivity.
  - refine (proj2 (updatePurchaseStats_empty_keeps 7 Sample.bob Sample.db0) _).
    vm_compute. discriminate.
Defined.

(** * The purchase routes and the two hooks *)

Section Saving.

Implicit Types (d : db) (p q : Purchase.t) (b : Body.t) (now : Z).

Lemma pre_save_customer now p :
  Purchase.customer (Purchase.pre_save now p) = Purchase.customer p.
Proof. by destruct (pre_save_fields now p) as (H & _). Qed.

(** The hook leaves a record whose derived fields agree with its items and
    its [paidAmount]. *)
Lemma pre_save_derived_fields_agree now p :
  derived_fields_agree (Purchase.pre_save now p).
Proof.
  split.
  - destruct (pre_save_fields now p) as (_ & -> & _).
    by rewrite recompute_all_idemp.
  - apply (pre_save_remainingAmount now p).
Qed.

(** [save] succeeds exactly on a valid document. *)
Lemma save_purchase_Some now id p d :
  Purchase.valid p = true →
  save_purchase now id p d
  = Some (post_save (Purchase.pre_save now p)
                    (set_purchases (<[id := Purchase.pre_save now p]> (purchases d)) d),
          Purchase.pre_save now p).
Proof. intros H. unfold save_purchase. by rewrite H. Qed.

Lemma save_purchase_None now id p d :
  Purchase.valid p = false → save_purchase now id p d = None.
Proof. intros H. unfold save_purchase. by rewrite H. Qed.

Lemma save_purchase_inv now id p d d' q :
  save_purchase now id p d = Some (d', q) →
  Purchase.valid p = true
  ∧ q = Purchase.pre_save now p
  ∧ d' = post_save q (set_purchases (<[id := q]> (purchases d)) d).
Proof.
  unfold save_purchase. destruct (Purchase.valid p); [|done].
  by intros [= <- <-].
Qed.

(** [save] stores the document the hook returns. *)
Lemma save_purchase_stored now id p d d' q :
  save_purchase now id p d = Some (d', q) →
  q = Purchase.pre_save now p ∧ purchases d' !! id = Some q.
Proof.
  intros (_ & -> & ->)%save_purchase_inv. split; [done|].
  unfold post_save. simpl.
  destruct (customers d !! _); simpl; by rewrite lookup_insert_eq.
Qed.

(** After [save], the aggregates of the purchase's customer are the fold
    over the customer's purchases. *)
Lemma save_purchase_agree now id p d d' q :
  save_purchase now id p d = Some (d', q) →
  aggregates_agree (Purchase.customer p) d'.
Proof.
  intros (_ & -> & ->)%save_purchase_inv.
  unfold post_save. simpl. rewrite pre_save_customer.
  destruct (customers d !! Purchase.customer p) as [c|] eqn:E.
  - apply updatePurchaseStats_agree. simpl.
    intros Hnil. apply match_customer_nil in Hnil. apply Hnil.
    exists id, (Purchase.pre_save now p).
    by rewrite lookup_insert_eq, pre_save_customer.
  - intros c. simpl. by rewrite E.
Qed.

(** [createPurchase] stores a derived record and refreshes the aggregates
    of its customer. *)
Lemma createPurchase_ok now user oid b d d' q :
  createPurchase now user oid b d = (d', Sent 201 q) →
  purchases d' !! oid = Some q
  ∧ derived_fields_agree q
  ∧ aggregates_agree (Purchase.customer q) d'.
Proof.
  unfold createPurchase.
  destruct (Body.customer b) as [cid|]; [|done].
  destruct (findOne_customer cid user (customers d)); [|done].
  destruct (save_purchase now oid (new_purchase now cid user b) d)
    as [[d1 q1]|] eqn:E; [|done].
  pose proof (save_purchase_stored _ _ _ _ _ _ E) as [-> Hst].
  pose proof (save_purchase_agree _ _ _ _ _ _ E) as Hag.
  intros [= <- <-]. split; [done|]. split.
  - apply pre_save_derived_fields_agree.
  - by rewrite pre_save_customer.
Qed.

(** So does [updatePaymentStatus]. *)
Lemma updatePaymentStatus_ok now user id b d d' q :
  updatePaymentStatus now user id b d = (d', Sent 200 q) →
  purchases d' !! id = Some q
  ∧ derived_fields_agree q
  ∧ aggregates_agree (Purchase.customer q) d'.
Proof.
  unfold updatePaymentStatus.
  destruct (findOne_purchase id user (purchases d)) as [p|]; [|done].
  set (p' := match Body.paymentMethod b with Some _ => _ | None => _ end).
  destruct (save_purchase now id p' d) as [[d1 q1]|] eqn:E; [|done].
  pose proof (save_purchase_stored _ _ _ _ _ _ E) as [-> Hst].
  pose proof (save_purchase_agree _ _ _ _ _ _ E) as Hag.
  intros [= <- <-]. split; [done|]. split.
  - apply pre_save_derived_fields_agree.
  - by rewrite pre_save_customer.
Qed.

(** [deletePurchase] refreshes the aggregates as long as the customer keeps
    a purchase. *)
Lemma deletePurchase_agree_if_left user id d p :
  findOne_purchase id user (purchases d) = Some p →
  match_customer (Purchase.customer p) (delete id (purchases d)) ≠ [] →
  aggregates_agree (Purchase.customer p) (deletePurchase user id d).1.
Proof.
  intros Hf Hne. unfold deletePurchase. rewrite Hf. simpl.
  destruct (customers d !! Purchase.customer p) as [c|] eqn:E.
  - by apply updatePurchaseStats_agree.
  - intros c. simpl. by rewrite E.
Qed.

End Saving.

(** C1 at its two failing inputs.  In [Sample.db0] alice's aggregates agree
    with her one purchase of 100.
    (1) [deletePurchase] of that purchase calls [updatePurchaseStats], which
        finds no row and writes nothing: alice keeps [totalPurchases = 1]
        and [totalSpent = 100] with no purchase left.
    (2) [updatePurchase] raising the total to 250 goes through
        [findOneAndUpdate], which runs no [post('save')]: alice keeps
        [totalSpent = 100] while her purchases sum to 250. *)
Theorem purchase_mutations_leave_stale_aggregates :
  aggregates_agree 7 Sample.db0
  ∧ (let d' := (deletePurchase Sample.shop 10 Sample.db0).1 in
     match_customer 7 (purchases d') = []
     ∧ customers d' !! 7%nat = Some Sample.alice
     ∧ ¬ aggregates_agree 7 d')
  ∧ (let d' := (updatePurchase Sample.shop 10 Sample.total_250 Sample.db0).1 in
     Stats.sum_totalAmount (match_customer 7 (purchases d')) = 250
     ∧ customers d' !! 7%nat = Some Sample.alice
     ∧ ¬ aggregates_agree 7 d').
Proof.
  split; [|split].
  - intros c Hc. vm_compute in Hc. injection Hc as <-. by vm_compute.
  - assert (Hl : customers (deletePurchase Sample.shop 10 Sample.db0).1 !! 7%nat
                 = Some Sample.alice) by (by vm_compute).
    split; [by vm_compute|]. split; [exact Hl|].
    intros H. destruct (H _ Hl) as [Hn _]. vm_compute in Hn. discriminate Hn.
  - assert (Hl : customers (updatePurchase Sample.shop 10 Sample.total_250
                              Sample.db0).1 !! 7%nat
                 = Some Sample.alice) by (by vm_compute).
    split; [by vm_compute|]. split; [exact Hl|].
    intros H. destruct (H _ Hl) as (_ & Hs & _). vm_compute in Hs. discriminate Hs.
Qed.

(** C4 at its failing input: [updatePurchase] with a payment of 100 stores
    [paidAmount = 100] next to the old [remainingAmount = 100] and the old
    status [pending]; the stored record is not what the hook would give at
    any time. *)
Theorem updatePurchase_skips_derivation :
  ∃ d' q,
    updatePurchase Sample.shop 10 Sample.pay_100 Sample.db0 = (d', Sent 200 q)
    ∧ purchases d' !! 10%nat = Some q
    ∧ Purchase.totalAmount q = Some 100
    ∧ Purchase.paidAmount q = 100
    ∧ Purchase.remainingAmount q = Some 100
    ∧ Purchase.paymentStatus q = pending
    ∧ ¬ derived_fields_agree q
    ∧ ∀ now, Purchase.pre_save now q ≠ q.
Proof.
  eexists _, _. split; [by vm_compute|].
  split; [by vm_compute|]. do 4 (split; [reflexivity|]). split.
  - intros [_ H]. vm_compute in H. discriminate H.
  - intros now H. apply (f_equal Purchase.remainingAmount) in H.
    vm_compute in H. discriminate H.
Qed.

(** The same payment sent to [updatePaymentStatus] is derived: the balance
    goes to 0 and the status to [completed]. *)
Example updatePaymentStatus_derives :
  ∃ d' q,
    updatePaymentStatus 5000 Sample.shop 10 Sample.pay_100 Sample.db0
    = (d', Sent 200 q)
    ∧ Purchase.remainingAmount q = Some 0
    ∧ Purchase.paymentStatus q = completed.
Proof. eexists _, _. split; [by vm_compute|]. by split. Qed.

(** * Deleting a customer *)

(** C7: for a customer of the caller's shop, [deleteCustomer] never touches
    the purchases or any other customer; if some purchase refers to the
    customer it keeps the record, now with [isActive = false] and every other
    field as before (reply 200), and if none does it removes the record
    (reply 204). *)
Theorem deleteCustomer_soft_or_hard (user id : nat) (c : Customer.t) (d : db) :
  customers d !! id = Some c →
  Customer.createdBy c = user →
  let d' := (deleteCustomer user id d).1 in
  let r := (deleteCustomer user id d).2 in
  purchases d' = purchases d
  ∧ (∀ j, j ≠ id → customers d' !! j = customers d !! j)
  ∧ ((∃ i p, purchases d !! i = Some p ∧ Purchase.customer p = id) →
     (∃ c', customers d' !! id = Some c'
            ∧ Customer.isActive c' = false
            ∧ Customer.totalPurchases c' = Customer.totalPurchases c
            ∧ Customer.totalSpent c' = Customer.totalSpent c
            ∧ Customer.lastPurchaseDate c' = Customer.lastPurchaseDate c
            ∧ Customer.createdBy c' = Customer.createdBy c)
     ∧ r = Sent 200 ())
  ∧ ((¬ ∃ i p, purchases d !! i = Some p ∧ Purchase.customer p = id) →
     customers d' !! id = None ∧ r = Sent 204 ()).
Proof.
  intros Hc Hby. unfold deleteCustomer, findOne_customer.
  rewrite Hc. rewrite decide_True by done.
  destruct (0 <? Stats.count (match_customer id (purchases d))) eqn:E; simpl.
  - apply count_pos_iff in E. rewrite match_customer_nil in E.
    split; [done|]. split; [by intros j Hj; rewrite lookup_insert_ne|].
    split; [|intros Hno; by destruct E].
    intros _. split; [|done].
    exists (Customer.set_isActive false c).
    by rewrite lookup_insert_eq.
  - assert (match_customer id (purchases d) = []) as Hnil.
    { destruct (match_customer id (purchases d)) eqn:E'; [done|].
      assert ((0 <? Stats.count (match_customer id (purchases d))) = true) as E''
        by (apply count_pos_iff; by rewrite E').
      rewrite E' in E''. congruence. }
    apply match_customer_nil in Hnil.
    split; [done|]. split; [by intros j Hj; rewrite lookup_delete_ne|].
    split; [done|]. by rewrite lookup_delete_eq.
Qed.

Lemma deleteCustomer_soft_or_hard_witness :
  Customer.isActive Sample.alice = true
  ∧ ((∃ c', customers (deleteCustomer Sample.shop 7 Sample.db0).1 !! 7%nat = Some c'
            ∧ Customer.isActive c' = false
            ∧ Customer.totalPurchases c' = 1
            ∧ Customer.totalSpent c' = 100
            ∧ Customer.lastPurchaseDate c' = Some 1000
            ∧ Customer.createdBy c' = Sample.shop)
     ∧ (deleteCustomer Sample.shop 7 Sample.db0).2 = Sent 200 ())
  ∧ (customers (deleteCustomer Sample.shop 8 Sample.db0).1 !! 8%nat = None
     ∧ (deleteCustomer Sample.shop 8 Sample.db0).2 = Sent 204 ()).
Proof.
  split; [reflexivity|]. split.
  - refine (proj1 (proj2 (proj2 (deleteCustomer_soft_or_hard
              Sample.shop 7 Sample.alice Sample.db0 _ _))) _).
    + vm_compute. reflexivity.
    + reflexivity.
    + exists 10%nat, (Sample.unpaid pending). split; vm_compute; reflexivity.
  - refine (proj2 (proj2 (proj2 (deleteCustomer_soft_or_hard
              Sample.shop 8 Sample.bob Sample.db0 _ _))) _).
    + vm_compute. reflexivity.
    + reflexivity.
    + intros (i & p & Hi & Hp).
      assert (match_customer 8 (purchases Sample.db0) = []) as Hnil
        by (vm_compute; reflexivity).
      apply (proj1 (match_customer_nil 8 (purchases Sample.db0)) Hnil).
      by exists i, p.
Defined.

(** A customer of another shop is not found, and nothing changes. *)
Lemma deleteCustomer_foreign (user id : nat) (d : db) :
  (∀ c, customers d !! id = Some c → Customer.createdBy c ≠ user) →
  deleteCustomer user id d = (d, customer_not_found).
Proof.
  intros H. unfold deleteCustomer, findOne_customer.
  destruct (customers d !! id) as [c|]; [|done].
  by rewrite decide_False by (by apply H).
Qed.

(** * Scoping by [createdBy] *)

Lemma not_found_404 {A} (d : db) (m : string) :
  @fails_not_found A d (d, Next (HttpError 404 m)).
Proof.
  exists (HttpError 404 m). split; [done|]. split; [by exists m|].
  intros [m' H]. discriminate H.
Qed.

Lemma findOne_purchase_None (user id : nat) (ps : gmap nat Purchase.t) :
  (∀ p, ps !! id = Some p → Purchase.createdBy p ≠ user) →
  findOne_purchase id user ps = None.
Proof.
  intros H. unfold findOne_purchase.
  destruct (ps !! id) as [p|]; [|done].
  by rewrite decide_False by (by apply H).
Qed.

Lemma findOne_customer_None (user id : nat) (cs : gmap nat Customer.t) :
  (∀ c, cs !! id = Some c → Customer.createdBy c ≠ user) →
  findOne_customer id user cs = None.
Proof.
  intros H. unfold findOne_customer.
  destruct (cs !! id) as [c|]; [|done].
  by rewrite decide_False by (by apply H).
Qed.

(** C8, as the code has it.  When no purchase with the given id belongs to
    the caller's shop (there is none, or its [createdBy] is another shop),
    [getPurchase], [deletePurchase] and [updatePaymentStatus] fail with a 404
    error, not a 403 one, and change nothing, whatever the body; so does
    [updatePurchase] when its body passes the update validators.  A body
    that fails them makes [updatePurchase] fail with [ValidationError],
    whatever the id, because [runValidators: true] validates before the
    query.  [createPurchase] fails with the 404 error when the body's
    customer is not a customer of the caller's shop, whatever else the body
    holds. *)
Theorem foreign_or_missing_not_found
    (now : Z) (user id oid : nat) (b : Body.t) (d : db) :
  ((∀ p, purchases d !! id = Some p → Purchase.createdBy p ≠ user) →
   fails_not_found d (getPurchase user id d)
   ∧ (update_valid b = true → fails_not_found d (updatePurchase user id b d))
   ∧ fails_not_found d (deletePurchase user id d)
   ∧ fails_not_found d (updatePaymentStatus now user id b d))
  ∧ (update_valid b = false →
     updatePurchase user id b d = (d, Next ValidationError))
  ∧ ((∀ cid c, Body.customer b = Some cid → customers d !! cid = Some c →
               Customer.createdBy c ≠ user) →
     fails_not_found d (createPurchase now user oid b d)).
Proof.
  split; [|split].
  - intros H%findOne_purchase_None.
    unfold getPurchase, updatePurchase, deletePurchase, updatePaymentStatus.
    rewrite H. split; [apply not_found_404|]. split.
    + intros ->. apply not_found_404.
    + split; apply not_found_404.
  - intros H. unfold updatePurchase. by rewrite H.
  - intros H. unfold createPurchase.
    destruct (Body.customer b) as [cid|]; [|apply not_found_404].
    rewrite findOne_customer_None; [apply not_found_404|].
    intros c. by apply H.
Qed.

Lemma foreign_or_missing_not_found_witness :
  (fails_not_found Sample.db0 (getPurchase Sample.other_shop 10 Sample.db0)
   ∧ fails_not_found Sample.db0
       (updatePurchase Sample.other_shop 10 Sample.pay_100 Sample.db0)
   ∧ fails_not_found Sample.db0 (deletePurchase Sample.other_shop 10 Sample.db0)
   ∧ fails_not_found Sample.db0
       (updatePaymentStatus 5000 Sample.other_shop 10 Sample.pay_minus_1 Sample.db0))
  ∧ updatePurchase Sample.shop 10 Sample.pay_minus_1 Sample.db0
    = (Sample.db0, Next ValidationError)
  ∧ fails_not_found Sample.db0
      (createPurchase 5000 Sample.other_shop 11 Sample.no_total Sample.db0).
Proof.
  destruct (foreign_or_missing_not_found 5000 Sample.other_shop 10 11
              Sample.pay_100 Sample.db0) as (H1 & _ & _).
  destruct (foreign_or_missing_not_found 5000 Sample.other_shop 10 11
              Sample.pay_minus_1 Sample.db0) as (H2 & _ & _).
  destruct (foreign_or_missing_not_found 5000 Sample.shop 10 11
              Sample.pay_minus_1 Sample.db0) as (_ & H3 & _).
  destruct (foreign_or_missing_not_found 5000 Sample.other_shop 10 11
              Sample.no_total Sample.db0) as (_ & _ & H4).
  assert (∀ p, purchases Sample.db0 !! 10%nat = Some p →
               Purchase.createdBy p ≠ Sample.other_shop) as Hforeign.
  { intros p Hp. vm_compute in Hp. injection Hp as <-. vm_compute. discriminate. }
  destruct (H1 Hforeign) as (G & U & D & _).
  destruct (H2 Hforeign) as (_ & _ & _ & P).
  split; [|split].
  - split; [exact G|]. split; [apply U; reflexivity|]. split; [exact D | exact P].
  - apply H3. reflexivity.
  - apply H4. intros cid c [= <-] Hc. vm_compute in Hc. injection Hc as <-.
    vm_compute. discriminate.
Defined.

(** C8, as stated, fails: an update of a purchase of another shop with a
    negative [paidAmount] is rejected by the update validators, not
    answered with the 404 error. *)
Lemma update_invalid_body_not_404 :
  (∀ p, purchases Sample.db0 !! 10%nat = Some p →
        Purchase.createdBy p ≠ Sample.other_shop)
  ∧ updatePurchase Sample.other_shop 10 Sample.pay_minus_1 Sample.db0
    = (Sample.db0, Next ValidationError)
  ∧ ¬ fails_not_found Sample.db0
        (updatePurchase Sample.other_shop 10 Sample.pay_minus_1 Sample.db0).
Proof.
  split; [|split].
  - intros p Hp. vm_compute in Hp. injection Hp as <-. vm_compute. discriminate.
  - reflexivity.
  - intros (e & He & [m Hm] & _). subst e.
    change (updatePurchase Sample.other_shop 10 Sample.pay_minus_1 Sample.db0)
      with (Sample.db0, @Next Purchase.t ValidationError) in He.
    discriminate He.
Qed.

(** * Monthly growth *)

Section Growth.

Local Open Scope Q_scope.

Lemma Qfloor_half_near (y : Q) :
  0 <= y → Qabs (inject_Z (Qfloor (y * 100 + (1 # 2))) / 100 - y) <= 1 # 200.
Proof.
  intros Hy.
  pose proof (Qfloor_le (y * 100 + (1 # 2))) as Hlo.
  pose proof (Qlt_floor (y * 100 + (1 # 2))) as Hhi.
  rewrite inject_Z_plus in Hhi. change (inject_Z 1) with 1 in Hhi.
  set (f := inject_Z (Qfloor (y * 100 + (1 # 2)))) in *. clearbody f.
  apply Qabs_Qle_condition. unfold Qdiv. change (/ 100) with (1 # 100).
  split; lra.
Qed.

Lemma Qmake_100 (n : Z) : n # 100 == inject_Z n / 100.
Proof. rewrite (Qmake_Qdiv n 100). reflexivity. Qed.

(** [toFixed 2] gives a multiple of 0.01 within 0.005 of its argument. *)
Lemma toFixed_2_rounded (x : Q) : rounded_to_cents (toFixed 2 x) x.
Proof.
  unfold rounded_to_cents, toFixed.
  change (Z.to_pos (10 ^ Z.of_nat 2)) with 100%positive.
  change (inject_Z (Z.pos 100)) with 100.
  destruct (Qle_bool 0 x) eqn:E.
  - apply Qle_bool_iff in E. eexists. split; [reflexivity|].
    rewrite (Qabs_pos x E), Qmake_100. by apply Qfloor_half_near.
  - assert (x < 0) as Hneg.
    { apply Qnot_le_lt. intros H. apply Qle_bool_iff in H. congruence. }
    eexists. split; [reflexivity|].
    rewrite (Qabs_neg x) by lra.
    pose proof (Qfloor_half_near (- x)) as H.
    rewrite Qmake_100, inject_Z_opp.
    set (f := inject_Z (Qfloor (- x * 100 + (1 # 2)))) in *. clearbody f.
    assert (0 <= - x) as Hx by lra. specialize (H Hx).
    apply Qabs_Qle_condition in H. apply Qabs_Qle_condition.
    unfold Qdiv in *. change (/ 100) with (1 # 100) in *. split; lra.
Qed.

End Growth.

(** C9, as the code has it: each of the two growth figures of
    [getMonthlyComparison] is exactly 0 when the previous month's figure is
    0 (also when the previous month has no purchase at all), and when it is
    positive the figure is [(current - previous) / previous * 100] rounded to
    two decimals by [toFixed(2)], not the exact quotient. *)
Theorem getMonthlyComparison_growth
    (user : nat) (currentMonthStart previousMonthStart previousMonthEnd : Z)
    (d : db) :
  let r := getMonthlyComparison user currentMonthStart previousMonthStart
                                previousMonthEnd d in
  let current := Comparison.currentMonth r in
  let previous := Comparison.previousMonth r in
  (Month.revenue previous = 0 → Comparison.growth_revenue r = 0%Q)
  ∧ (0 < Month.revenue previous →
     rounded_to_cents (Comparison.growth_revenue r)
       (exact_growth (Month.revenue current) (Month.revenue previous)))
  ∧ (Month.transactions previous = 0 → Comparison.growth_transactions r = 0%Q)
  ∧ (0 < Month.transactions previous →
     rounded_to_cents (Comparison.growth_transactions r)
       (exact_growth (Month.transactions current) (Month.transactions previous))).
Proof.
  intros r current previous. subst r current previous.
  unfold getMonthlyComparison. simpl. unfold growth.
  repeat split.
  - by intros ->.
  - intros H. apply Z.ltb_lt in H. rewrite H. apply toFixed_2_rounded.
  - by intros ->.
  - intros H. apply Z.ltb_lt in H. rewrite H. apply toFixed_2_rounded.
Qed.

Lemma getMonthlyComparison_growth_witness :
  let r := getMonthlyComparison Sample.shop 500 0 400 in
  Comparison.growth_revenue (r Sample.db0) = 0%Q
  ∧ Comparison.growth_transactions (r Sample.db0) = 0%Q
  ∧ rounded_to_cents (Comparison.growth_revenue (r Sample.db1)) (exact_growth 400 300)
  ∧ rounded_to_cents (Comparison.growth_transactions (r Sample.db1)) (exact_growth 1 1).
Proof.
  pose proof (getMonthlyComparison_growth Sample.shop 500 0 400 Sample.db0)
    as (H1 & _ & H3 & _).
  pose proof (getMonthlyComparison_growth Sample.shop 500 0 400 Sample.db1)
    as (_ & H2 & _ & H4).
  split; [apply H1; vm_compute; reflexivity|].
  split; [apply H3; vm_compute; reflexivity|].
  split; [apply H2; vm_compute; reflexivity|].
  apply H4; vm_compute; reflexivity.
Defined.

(** C9, as stated, fails: from 300 to 400 the code answers 33.33, which is
    not [(400 - 300) / 300 * 100]. *)
Lemma growth_is_rounded_not_exact :
  let r := getMonthlyComparison Sample.shop 500 0 400 Sample.db1 in
  Month.revenue (Comparison.previousMonth r) = 300
  ∧ Month.revenue (Comparison.currentMonth r) = 400
  ∧ Comparison.growth_revenue r = (3333 # 100)%Q
  ∧ ¬ (Comparison.growth_revenue r == exact_growth 400 300)%Q.
Proof.
  vm_compute. repeat split; try reflexivity. discriminate.
Qed.

(** The spec's example: previous revenue 0, current revenue 100. *)
Example growth_from_nothing :
  let r := getMonthlyComparison Sample.shop 500 0 400 Sample.db0 in
  Month.revenue (Comparison.previousMonth r) = 0
  ∧ Month.revenue (Comparison.currentMonth r) = 100
  ∧ Comparison.growth_revenue r = 0%Q.
Proof. by vm_compute. Qed.

(** * Further properties of the hook *)

Section Hook.

Implicit Types (p q : Purchase.t) (now : Z) (its : list Item.t).

Lemma same_sale_recompute its : Forall2 same_sale its (recompute <$> its).
Proof. induction its as [|i rest IH]; csimpl; constructor; [by destruct i|done]. Qed.

Lemma Item_valid_recompute (i : Item.t) :
  Item.valid i = true → Item.valid (recompute i) = true.
Proof.
  unfold Item.valid. destruct i as [n q u t]; simpl.
  rewrite !andb_true_iff. by intros [[Hq Hu] _].
Qed.

Lemma items_valid_recompute its :
  forallb Item.valid its = true → forallb Item.valid (recompute <$> its) = true.
Proof.
  induction its as [|i rest IH]; csimpl; [done|].
  rewrite !andb_true_iff. intros [Hi Hr]. split; [by apply Item_valid_recompute|auto].
Qed.

Lemma sum_items_nonneg its :
  forallb Item.valid its = true → 0 ≤ sum_items its.
Proof.
  induction its as [|i rest IH]; csimpl; [done|].
  rewrite andb_true_iff. intros [Hi Hr]. specialize (IH Hr).
  unfold Item.valid in Hi. rewrite !andb_true_iff in Hi.
  destruct Hi as [[Hq%Z.leb_le Hu%Z.leb_le] _]. nia.
Qed.

(** After the hook a valid purchase has a total and a balance that are
    numbers. *)
Lemma pre_save_numbers now p :
  Purchase.valid p = true →
  ∃ a, Purchase.totalAmount (Purchase.pre_save now p) = Some a
       ∧ 0 ≤ a
       ∧ Purchase.remainingAmount (Purchase.pre_save now p)
         = Some (a - Purchase.paidAmount p).
Proof.
  unfold Purchase.valid.
  destruct (Purchase.totalAmount p) as [a|] eqn:Ha; [|done].
  rewrite !andb_true_iff. intros [[Hnn%Z.leb_le Hpaid] Hits].
  destruct (pre_save_fields now p)
    as (_ & _ & Htot & _ & _ & _ & _ & _ & Hr & _).
  simpl in Htot, Hr. rewrite Hr, Htot, calculate_total_totalAmount, Ha.
  destruct (Purchase.items p) as [|i rest] eqn:E; [by exists a|].
  simpl. destruct (Z.eqb_spec a 0); [|by exists a].
  exists (sum_items (i :: rest)). split; [done|]. split; [|done].
  by apply sum_items_nonneg.
Qed.

End Hook.

(** X1: the hook never touches what the caller entered: the customer, the
    shop, the dates, the paid amount and the payment method stay, and the
    items stay the same sales in the same order. *)
Theorem pre_save_keeps_inputs (now : Z) (p : Purchase.t) :
  let q := Purchase.pre_save now p in
  Purchase.customer q = Purchase.customer p
  ∧ Purchase.createdBy q = Purchase.createdBy p
  ∧ Purchase.purchaseDate q = Purchase.purchaseDate p
  ∧ Purchase.dueDate q = Purchase.dueDate p
  ∧ Purchase.paidAmount q = Purchase.paidAmount p
  ∧ Purchase.paymentMethod q = Purchase.paymentMethod p
  ∧ Forall2 same_sale (Purchase.items p) (Purchase.items q).
Proof.
  intros q. subst q.
  destruct (pre_save_fields now p)
    as (Hc & Hits & _ & _ & Hm & Hd & Hdue & Hpaid & _ & Hby).
  simpl in *. rewrite Hits. repeat split; try done. apply same_sale_recompute.
Qed.

(** X2: a purchase that passes the schema's validators still passes them
    after the hook, and its total is then a number that is not negative. *)
Theorem pre_save_valid (now : Z) (p : Purchase.t) :
  Purchase.valid p = true →
  Purchase.valid (Purchase.pre_save now p) = true
  ∧ ∃ a, Purchase.totalAmount (Purchase.pre_save now p) = Some a ∧ 0 ≤ a.
Proof.
  intros Hv. destruct (pre_save_numbers now p Hv) as (a' & Ha' & Hnn' & _).
  split; [|by exists a'].
  unfold Purchase.valid in Hv.
  destruct (Purchase.totalAmount p) as [a|]; [|done].
  rewrite !andb_true_iff in Hv. destruct Hv as [[_ Hpaid] Hits].
  destruct (pre_save_fields now p) as (_ & Hq & _ & _ & _ & _ & _ & Hp & _).
  simpl in Hq, Hp.
  unfold Purchase.valid. rewrite Ha', Hp, Hq, !andb_true_iff.
  repeat split; [by apply Z.leb_le | done | by apply items_valid_recompute].
Qed.

Lemma pre_save_valid_witness :
  Purchase.valid
    (Purchase.pre_save 1000 (new_purchase 1000 7 Sample.shop Sample.free_pens)) = true.
Proof.
  apply (pre_save_valid 1000 (new_purchase 1000 7 Sample.shop Sample.free_pens)).
  vm_compute. reflexivity.
Defined.

(** X3: deriving again at a later time gives what deriving once at that
    later time gives; the first derivation leaves no trace. *)
Theorem pre_save_later (now now' : Z) (p : Purchase.t) :
  now ≤ now' →
  Purchase.pre_save now' (Purchase.pre_save now p) = Purchase.pre_save now' p.
Proof.
  intros Hle.
  destruct (pre_save_fields now p)
    as (Hc & Hits & Htot & Hs & Hm & Hd & Hdue & Hpaid & Hr & Hby).
  destruct (pre_save_fields now' (Purchase.pre_save now p))
    as (Hc' & Hits' & Htot' & Hs' & Hm' & Hd' & Hdue' & Hpaid' & Hr' & Hby').
  destruct (pre_save_fields now' p)
    as (Hc2 & Hits2 & Htot2 & Hs2 & Hm2 & Hd2 & Hdue2 & Hpaid2 & Hr2 & Hby2).
  simpl in *.
  rewrite calculate_total_again in Htot', Hs', Hr'.
  apply purchase_eq; try congruence.
  - by rewrite Hits', Hits, Hits2, recompute_all_idemp.
  - rewrite Hs', Hs2, Hpaid, Hdue, Hs.
    destruct (Js.le0 _); [done|].
    destruct (Purchase.dueDate p) as [due|]; simpl; [|done].
    destruct (Z.ltb_spec due now'); [done|].
    by destruct (Z.ltb_spec due now); [lia|].
Qed.

Lemma pre_save_later_witness :
  Purchase.pre_save 2001 (Purchase.pre_save 1500 Sample.cancelled_due)
  = Purchase.pre_save 2001 Sample.cancelled_due.
Proof. apply (pre_save_later 1500 2001 Sample.cancelled_due). lia. Defined.

(** X4: the hook changes the status in two ways only: to [completed], with
    a balance that is a number not above 0, or to [overdue], with
    [remainingAmount <= 0] false and a due date strictly before [now].  It
    never sets [pending] or [cancelled]. *)
Theorem pre_save_status_change (now : Z) (p : Purchase.t) :
  let q := Purchase.pre_save now p in
  Purchase.paymentStatus q ≠ Purchase.paymentStatus p →
  (Purchase.paymentStatus q = completed
   ∧ ∃ r, Purchase.remainingAmount q = Some r ∧ r ≤ 0)
  ∨ (Purchase.paymentStatus q = overdue
     ∧ Js.le0 (Purchase.remainingAmount q) = false
     ∧ ∃ due, Purchase.dueDate q = Some due ∧ due < now).
Proof.
  intros q. subst q.
  destruct (pre_save_fields now p)
    as (_ & _ & _ & Hs & _ & _ & Hdue & _ & Hr & _).
  simpl in Hs, Hdue, Hr. rewrite Hs, Hdue, Hr. clear Hs Hdue Hr.
  destruct (Js.sub _ _) as [r|]; simpl.
  - destruct (Z.leb_spec r 0).
    + intros _. left. split; [done|]. by exists r.
    + destruct (Purchase.dueDate p) as [due|]; simpl; [|done].
      destruct (Z.ltb_spec due now); [|done].
      intros _. right. split; [done|]. split; [done|]. by exists due.
  - destruct (Purchase.dueDate p) as [due|]; simpl; [|done].
    destruct (Z.ltb_spec due now); [|done].
    intros _. right. split; [done|]. split; [done|]. by exists due.
Qed.

Lemma pre_save_status_change_witness :
  Purchase.paymentStatus (Purchase.pre_save 0 Sample.cancelled_paid) = completed
  ∨ Purchase.paymentStatus (Purchase.pre_save 0 Sample.cancelled_paid) = overdue.
Proof.
  destruct (pre_save_status_change 0 Sample.cancelled_paid) as [[H _]|[H _]].
  - vm_compute. discriminate.
  - left. exact H.
  - right. exact H.
Defined.

(** X5: on a purchase that passes the validators and was not [overdue]
    before, the hook sets [overdue] exactly when the virtual [isOverdue]
    holds of the result. *)
Theorem pre_save_overdue_iff_isOverdue (now : Z) (p : Purchase.t) :
  Purchase.valid p = true →
  Purchase.paymentStatus p ≠ overdue →
  Purchase.paymentStatus (Purchase.pre_save now p) = overdue
  ↔ Purchase.isOverdue now (Purchase.pre_save now p) = true.
Proof.
  intros Hv Hno. split; [|apply isOverdue_pre_save].
  destruct (pre_save_numbers now p Hv) as (a & _ & _ & Hrem).
  destruct (pre_save_fields now p)
    as (_ & _ & _ & Hs & _ & _ & Hdue & _ & Hr & _).
  simpl in Hs, Hdue, Hr. rewrite Hs, <- Hr, Hrem. simpl. intros Ho.
  apply isOverdue_iff. rewrite Hrem, Hdue.
  destruct (Z.leb_spec (a - Purchase.paidAmount p) 0); [done|].
  destruct (Purchase.dueDate p) as [due|]; simpl in Ho; [|done].
  destruct (Z.ltb_spec due now); [|done].
  by exists due, (a - Purchase.paidAmount p).
Qed.

Lemma pre_save_overdue_iff_isOverdue_witness :
  Purchase.isOverdue 2001 (Purchase.pre_save 2001 Sample.cancelled_due) = true.
Proof.
  apply (pre_save_overdue_iff_isOverdue 2001 Sample.cancelled_due);
    [reflexivity | discriminate | reflexivity].
Defined.

(** * Further properties of [updatePurchaseStats] *)

Section Reconcile.

Implicit Types (d : db) (c : Customer.t) (cid : nat).

Lemma db_eq d d' :
  customers d = customers d' → purchases d = purchases d' → d = d'.
Proof. destruct d, d'; simpl; by intros -> ->. Qed.

Lemma updatePurchaseStats_other cid cid' c d :
  cid ≠ cid' →
  customers (updatePurchaseStats cid c d) !! cid' = customers d !! cid'.
Proof. intros H. by rewrite updatePurchaseStats_customers, lookup_insert_ne. Qed.

(** A refresh for any customer keeps the agreement of a customer that has a
    purchase. *)
Lemma updatePurchaseStats_keeps_agree cid cid' c d :
  match_customer cid' (purchases d) ≠ [] →
  aggregates_agree cid' d →
  aggregates_agree cid' (updatePurchaseStats cid c d).
Proof.
  intros Hne Hag. destruct (decide (cid = cid')) as [->|Hneq].
  - by apply updatePurchaseStats_agree.
  - intros c'. rewrite updatePurchaseStats_other by done.
    rewrite updatePurchaseStats_purchases. apply Hag.
Qed.

Lemma update_all_stats_purchases (cs : list (nat * Customer.t)) d :
  purchases (update_all_stats cs d) = purchases d.
Proof.
  revert d. induction cs as [|[cid c] cs IH]; intros d; [done|].
  unfold update_all_stats in *. simpl. by rewrite IH.
Qed.

Lemma update_all_stats_keeps_agree (cs : list (nat * Customer.t)) cid d :
  match_customer cid (purchases d) ≠ [] →
  aggregates_agree cid d →
  aggregates_agree cid (update_all_stats cs d).
Proof.
  revert d. induction cs as [|[cid' c'] cs IH]; intros d Hne Hag; [done|].
  unfold update_all_stats in *. simpl. apply IH.
  - by rewrite updatePurchaseStats_purchases.
  - by apply updatePurchaseStats_keeps_agree.
Qed.

End Reconcile.

(** X6: [updatePurchaseStats] is idempotent: called again on the document
    it has just saved, it leaves the database as it is. *)
Theorem updatePurchaseStats_idempotent (cid : nat) (c c1 : Customer.t) (d : db) :
  customers (updatePurchaseStats cid c d) !! cid = Some c1 →
  updatePurchaseStats cid c1 (updatePurchaseStats cid c d)
  = updatePurchaseStats cid c d.
Proof.
  intros Hc1. apply db_eq; [|done].
  rewrite (updatePurchaseStats_customers cid c1), updatePurchaseStats_purchases.
  rewrite updatePurchaseStats_customers in Hc1 |- *.
  rewrite lookup_insert_eq in Hc1. injection Hc1 as <-.
  rewrite insert_insert_eq. f_equal.
  by destruct (match_customer cid (purchases d)).
Qed.

Lemma updatePurchaseStats_idempotent_witness :
  updatePurchaseStats 7 Sample.alice (updatePurchaseStats 7 Sample.bob Sample.db0)
  = updatePurchaseStats 7 Sample.bob Sample.db0.
Proof.
  apply (updatePurchaseStats_idempotent 7 Sample.bob Sample.alice Sample.db0).
  vm_compute. reflexivity.
Defined.

(** X7: refreshing one customer is independent of every other customer: it
    leaves the purchases and the other customers' documents alone, and two
    refreshes of different customers give the same database in either
    order. *)
Theorem updatePurchaseStats_independent
    (cid cid' : nat) (c c' : Customer.t) (d : db) :
  cid ≠ cid' →
  purchases (updatePurchaseStats cid c d) = purchases d
  ∧ customers (updatePurchaseStats cid c d) !! cid' = customers d !! cid'
  ∧ updatePurchaseStats cid c (updatePurchaseStats cid' c' d)
    = updatePurchaseStats cid' c' (updatePurchaseStats cid c d).
Proof.
  intros Hne. split; [done|]. split; [by apply updatePurchaseStats_other|].
  apply db_eq; [|done].
  rewrite !updatePurchaseStats_customers, !updatePurchaseStats_purchases.
  by apply insert_insert_ne.
Qed.

Lemma updatePurchaseStats_independent_witness :
  updatePurchaseStats 7 Sample.alice (updatePurchaseStats 8 Sample.bob Sample.db0)
  = updatePurchaseStats 8 Sample.bob (updatePurchaseStats 7 Sample.alice Sample.db0).
Proof.
  apply (updatePurchaseStats_independent 7 8 Sample.alice Sample.bob Sample.db0).
  discriminate.
Defined.

(** X8: after the seeder's loop over the created customers, every created
    customer that has a purchase has aggregates that agree with its
    purchases, whatever the documents held before. *)
Theorem update_all_stats_agree
    (createdCustomers : list (nat * Customer.t)) (cid : nat) (c : Customer.t)
    (d : db) :
  (cid, c) ∈ createdCustomers →
  match_customer cid (purchases d) ≠ [] →
  aggregates_agree cid (update_all_stats createdCustomers d).
Proof.
  revert d. induction createdCustomers as [|[cid' c'] cs IH]; intros d Hin Hne.
  { by apply not_elem_of_nil in Hin. }
  apply elem_of_cons in Hin as [[= <- <-]|Hin].
  - change (update_all_stats ((cid, c) :: cs) d)
      with (update_all_stats cs (updatePurchaseStats cid c d)).
    apply update_all_stats_keeps_agree; [done|].
    by apply updatePurchaseStats_agree.
  - change (update_all_stats ((cid', c') :: cs) d)
      with (update_all_stats cs (updatePurchaseStats cid' c' d)).
    by apply IH.
Qed.

Lemma update_all_stats_agree_witness :
  aggregates_agree 7
    (update_all_stats [(8%nat, Sample.alice); (7%nat, Sample.bob)] Sample.db0).
Proof.
  apply (update_all_stats_agree [(8%nat, Sample.alice); (7%nat, Sample.bob)]
           7 Sample.bob Sample.db0).
  - right. left.
  - vm_compute. discriminate.
Defined.

(** * Further properties of the purchase routes *)

Section PurchaseRoutes.

Implicit Types (d : db) (p q : Purchase.t) (b : Body.t) (now : Z).

Lemma findOne_customer_Some (id user : nat) (cs : gmap nat Customer.t) c :
  findOne_customer id user cs = Some c ↔ cs !! id = Some c ∧ Customer.createdBy c = user.
Proof.
  unfold findOne_customer. destruct (cs !! id) as [c'|]; [|split; [done | by intros [? _]]].
  destruct (decide (Customer.createdBy c' = user)) as [E|E]; split.
  - by intros [= <-].
  - by intros [[= <-] _].
  - done.
  - by intros [[= <-] H].
Qed.

Lemma findOne_purchase_Some (id user : nat) (ps : gmap nat Purchase.t) p :
  findOne_purchase id user ps = Some p ↔ ps !! id = Some p ∧ Purchase.createdBy p = user.
Proof.
  unfold findOne_purchase. destruct (ps !! id) as [p'|]; [|split; [done | by intros [? _]]].
  destruct (decide (Purchase.createdBy p' = user)) as [E|E]; split.
  - by intros [= <-].
  - by intros [[= <-] _].
  - done.
  - by intros [[= <-] H].
Qed.

(** What [save] does to the two collections. *)
Lemma save_purchase_collections now id p d d' q :
  save_purchase now id p d = Some (d', q) →
  purchases d' = <[id := Purchase.pre_save now p]> (purchases d)
  ∧ ∀ j, j ≠ Purchase.customer p → customers d' !! j = customers d !! j.
Proof.
  intros (_ & -> & ->)%save_purchase_inv.
  unfold post_save. simpl. rewrite pre_save_customer.
  destruct (customers d !! Purchase.customer p) as [c|]; simpl; [|done].
  split; [done|]. intros j Hj. by rewrite lookup_insert_ne.
Qed.

End PurchaseRoutes.

(** X9: when [createPurchase] answers 201, the new purchase is stored under
    its [_id] and nothing else in the collection changes; it belongs to the
    caller and to the customer the body names, who is a customer of the
    caller's shop; its derived fields agree with its items and paid amount;
    the customer's aggregates agree with the customer's purchases and no
    other customer is touched. *)
Theorem createPurchase_created
    (now : Z) (user oid : nat) (b : Body.t) (d d' : db) (q : Purchase.t) :
  createPurchase now user oid b d = (d', Sent 201 q) →
  purchases d' = <[oid := q]> (purchases d)
  ∧ Purchase.createdBy q = user
  ∧ Body.customer b = Some (Purchase.customer q)
  ∧ (∃ c, customers d !! Purchase.customer q = Some c ∧ Customer.createdBy c = user)
  ∧ derived_fields_agree q
  ∧ aggregates_agree (Purchase.customer q) d'
  ∧ ∀ j, j ≠ Purchase.customer q → customers d' !! j = customers d !! j.
Proof.
  unfold createPurchase.
  destruct (Body.customer b) as [cid|]; [|done].
  destruct (findOne_customer cid user (customers d)) as [c|] eqn:Hc; [|done].
  apply findOne_customer_Some in Hc.
  destruct (save_purchase now oid (new_purchase now cid user b) d)
    as [[d1 q1]|] eqn:E; [|done].
  pose proof (save_purchase_stored _ _ _ _ _ _ E) as [-> _].
  pose proof (save_purchase_agree _ _ _ _ _ _ E) as Hag.
  pose proof (save_purchase_collections _ _ _ _ _ _ E) as [Hps Hcs].
  intros [= <- <-]. simpl in *.
  destruct (pre_save_fields now (new_purchase now cid user b))
    as (Hcust & _ & _ & _ & _ & _ & _ & _ & _ & Hby).
  simpl in Hcust, Hby. rewrite Hcust, Hby.
  split; [done|]. split; [done|]. split; [done|].
  split; [by exists c|].
  split; [apply pre_save_derived_fields_agree|].
  by split.
Qed.

Lemma createPurchase_created_witness :
  ∃ d' q,
    createPurchase 5000 Sample.shop 11 Sample.free_pens Sample.db0 = (d', Sent 201 q)
    ∧ purchases d' = <[11%nat := q]> (purchases Sample.db0)
    ∧ Purchase.createdBy q = Sample.shop.
Proof.
  destruct (createPurchase 5000 Sample.shop 11 Sample.free_pens Sample.db0)
    as [d' r] eqn:E.
  assert (∃ q, r = Sent 201 q) as [q ->].
  { vm_compute in E. injection E as _ <-. by eexists. }
  exists d', q. split; [done|].
  destruct (createPurchase_created _ _ _ _ _ _ _ E) as (H1 & H2 & _).
  by split.
Defined.

(** X10: take a stored purchase of the caller's shop that passes the
    validators.  With a negative [paidAmount] in the body,
    [updatePaymentStatus] fails with [ValidationError] and changes nothing.
    Otherwise it answers 200 and stores the derived record: the paid amount
    and the payment method come from the body when it has them, the customer
    and the due date stay, and the customer's aggregates are refreshed.  A
    balance that is settled gives [completed] whatever status the body asks
    for; the body's status (or else the stored one) is kept only while the
    balance is open and the due date is absent or not passed. *)
Theorem updatePaymentStatus_saved
    (now : Z) (user id : nat) (b : Body.t) (d : db) (p : Purchase.t) :
  findOne_purchase id user (purchases d) = Some p →
  Purchase.valid p = true →
  ((∀ a, Body.paidAmount b = Some a → a < 0 →
         updatePaymentStatus now user id b d = (d, Next ValidationError))
   ∧ ((∀ a, Body.paidAmount b = Some a → 0 ≤ a) →
      ∃ d' q,
        updatePaymentStatus now user id b d = (d', Sent 200 q)
        ∧ purchases d' = <[id := q]> (purchases d)
        ∧ Purchase.paidAmount q = default (Purchase.paidAmount p) (Body.paidAmount b)
        ∧ Purchase.paymentMethod q
          = default (Purchase.paymentMethod p) (Body.paymentMethod b)
        ∧ Purchase.customer q = Purchase.customer p
        ∧ Purchase.dueDate q = Purchase.dueDate p
        ∧ derived_fields_agree q
        ∧ aggregates_agree (Purchase.customer p) d'
        ∧ (Js.le0 (Purchase.remainingAmount q) = true →
           Purchase.paymentStatus q = completed)
        ∧ (Js.le0 (Purchase.remainingAmount q) = false →
           (∀ due, Purchase.dueDate p = Some due → now ≤ due) →
           Purchase.paymentStatus q
           = default (Purchase.paymentStatus p) (Body.paymentStatus b)))).
Proof.
  intros Hf Hv. unfold updatePaymentStatus. rewrite Hf.
  set (p' := match Body.paymentMethod b with Some _ => _ | None => _ end).
  assert (Purchase.paidAmount p' = default (Purchase.paidAmount p) (Body.paidAmount b)
          ∧ Purchase.paymentMethod p'
            = default (Purchase.paymentMethod p) (Body.paymentMethod b)
          ∧ Purchase.paymentStatus p'
            = default (Purchase.paymentStatus p) (Body.paymentStatus b)
          ∧ Purchase.customer p' = Purchase.customer p
          ∧ Purchase.dueDate p' = Purchase.dueDate p
          ∧ Purchase.totalAmount p' = Purchase.totalAmount p
          ∧ Purchase.items p' = Purchase.items p)
    as (Hpaid & Hm & Hs & Hc & Hd & Htot & Hits).
  { subst p'. by destruct (Body.paidAmount b), (Body.paymentStatus b),
                          (Body.paymentMethod b). }
  assert (Hvalid : Purchase.valid p' = (0 <=? Purchase.paidAmount p')).
  { unfold Purchase.valid in Hv |- *. rewrite Htot, Hits.
    destruct (Purchase.totalAmount p) as [t|]; [|done].
    rewrite !andb_true_iff in Hv. destruct Hv as [[-> _] ->].
    by rewrite andb_true_r. }
  split.
  { intros a Ha Hneg. rewrite save_purchase_None; [done|].
    rewrite Hvalid, Hpaid, Ha. simpl. by apply Z.leb_gt. }
  intros Hnn.
  assert (Purchase.valid p' = true) as Hv'.
  { rewrite Hvalid, Hpaid. apply Z.leb_le.
    destruct (Body.paidAmount b) as [a|] eqn:E; simpl; [by apply Hnn|].
    unfold Purchase.valid in Hv.
    destruct (Purchase.totalAmount p); [|done].
    rewrite !andb_true_iff in Hv. destruct Hv as [[_ H] _]. by apply Z.leb_le. }
  rewrite (save_purchase_Some now id p' d Hv').
  pose proof (save_purchase_agree now id p' d _ _ (save_purchase_Some now id p' d Hv'))
    as Hag.
  pose proof (save_purchase_collections now id p' d _ _
                (save_purchase_Some now id p' d Hv')) as [Hps _].
  eexists _, (Purchase.pre_save now p').
  destruct (pre_save_fields now p')
    as (Hc' & _ & _ & Hs' & Hm' & _ & Hd' & Hpaid' & Hr' & _).
  simpl in Hc', Hs', Hm', Hd', Hpaid', Hr'.
  split; [done|]. split; [done|]. split; [congruence|]. split; [congruence|].
  split; [congruence|]. split; [congruence|].
  split; [apply pre_save_derived_fields_agree|].
  split; [by rewrite <- Hc|].
  rewrite Hs', <- Hr', Hd, Hs. split.
  - by intros ->.
  - intros -> Hdue. destruct (Purchase.dueDate p) as [due|]; simpl; [|done].
    specialize (Hdue due eq_refl). by destruct (Z.ltb_spec due now); [lia|].
Qed.

Lemma updatePaymentStatus_saved_witness :
  (∃ d' q,
     updatePaymentStatus 5000 Sample.shop 10 Sample.pay_100 Sample.db0
     = (d', Sent 200 q)
     ∧ Purchase.paidAmount q = 100
     ∧ Purchase.paymentStatus q = completed)
  ∧ updatePaymentStatus 5000 Sample.shop 10 Sample.pay_minus_1 Sample.db0
    = (Sample.db0, Next ValidationError).
Proof.
  split.
  - destruct (updatePaymentStatus_saved 5000 Sample.shop 10 Sample.pay_100 Sample.db0
                (Sample.unpaid pending)) as [_ H].
    { vm_compute. reflexivity. }
    { reflexivity. }
    destruct H as (d' & q & E & _ & Hpaid & _ & _ & _ & _ & _ & Hdone & _).
    { intros a [= <-]. lia. }
    exists d', q. split; [exact E|]. split; [exact Hpaid|].
    apply Hdone. vm_compute in E. injection E as _ <-. reflexivity.
  - destruct (updatePaymentStatus_saved 5000 Sample.shop 10 Sample.pay_minus_1
                Sample.db0 (Sample.unpaid pending)) as [H _].
    { vm_compute. reflexivity. }
    { reflexivity. }
    apply (H (-1)); [reflexivity | lia].
Defined.

(** X11: [deletePurchase] on a purchase of the caller's shop answers 204,
    removes that purchase and no other, and touches no customer but the
    purchase's own.  If that customer keeps a purchase its aggregates agree
    with what is left; if it keeps none its document is as before. *)
Theorem deletePurchase_deleted (user id : nat) (d : db) (p : Purchase.t) :
  findOne_purchase id user (purchases d) = Some p →
  let d' := (deletePurchase user id d).1 in
  (deletePurchase user id d).2 = Sent 204 ()
  ∧ purchases d' = delete id (purchases d)
  ∧ (∀ j, j ≠ Purchase.customer p → customers d' !! j = customers d !! j)
  ∧ (match_customer (Purchase.customer p) (purchases d') ≠ [] →
     aggregates_agree (Purchase.customer p) d')
  ∧ (match_customer (Purchase.customer p) (purchases d') = [] →
     customers d' !! Purchase.customer p = customers d !! Purchase.customer p).
Proof.
  intros Hf. unfold deletePurchase. rewrite Hf. simpl.
  destruct (customers d !! Purchase.customer p) as [c|] eqn:E; simpl.
  - split; [done|]. split; [done|].
    split; [by intros j Hj; rewrite lookup_insert_ne|].
    split.
    + intros Hne. by apply updatePurchaseStats_agree.
    + intros ->. by rewrite lookup_insert_eq.
  - split; [done|]. split; [done|]. split; [done|]. split; [|done].
    intros _ c. simpl. by rewrite E.
Qed.

Lemma deletePurchase_deleted_witness :
  purchases (deletePurchase Sample.shop 10 Sample.db0).1 = delete 10%nat (purchases Sample.db0)
  ∧ (deletePurchase Sample.shop 10 Sample.db0).2 = Sent 204 ().
Proof.
  destruct (deletePurchase_deleted Sample.shop 10 Sample.db0 (Sample.unpaid pending))
    as (H1 & H2 & _).
  { vm_compute. reflexivity. }
  by split.
Defined.

(** X12: creating a purchase under a fresh [_id] and deleting it again
    gives back the database, provided the customer had a purchase before
    and aggregates that agreed with its purchases. *)
Theorem create_then_delete
    (now : Z) (user oid cid : nat) (b : Body.t) (d : db) (c : Customer.t) :
  purchases d !! oid = None →
  Body.customer b = Some cid →
  customers d !! cid = Some c →
  Customer.createdBy c = user →
  match_customer cid (purchases d) ≠ [] →
  aggregates_agree cid d →
  (deletePurchase user oid (createPurchase now user oid b d).1).1 = d.
Proof.
  intros Hfresh Hb Hc Hby Hne Hag.
  unfold createPurchase. rewrite Hb.
  rewrite (proj2 (findOne_customer_Some cid user (customers d) c)) by done.
  set (q := Purchase.pre_save now (new_purchase now cid user b)).
  destruct (pre_save_fields now (new_purchase now cid user b))
    as (Hcust & _ & _ & _ & _ & _ & _ & _ & _ & Hqby).
  simpl in Hcust, Hqby. fold q in Hcust, Hqby.
  unfold save_purchase.
  destruct (Purchase.valid (new_purchase now cid user b)); simpl; last first.
  { unfold deletePurchase.
    rewrite (findOne_purchase_None user oid (purchases d)); [done|].
    intros p Hp. by rewrite Hfresh in Hp. }
  unfold post_save. fold q. simpl. rewrite Hcust, Hc.
  unfold deletePurchase.
  rewrite (proj2 (findOne_purchase_Some oid user _ q))
    by (by rewrite updatePurchaseStats_purchases; simpl; rewrite lookup_insert_eq).
  rewrite updatePurchaseStats_purchases. simpl.
  rewrite delete_insert_id by done. rewrite Hcust.
  simpl. rewrite lookup_insert_eq.
  apply db_eq; [|done].
  rewrite updatePurchaseStats_customers. simpl. rewrite insert_insert_eq.
  apply insert_id. rewrite Hc. f_equal.
  destruct (Hag c Hc) as (Hn & Hs & Hl).
  destruct (match_customer cid (purchases d)) as [|t l]; [done|].
  clear Hc Hby. destruct (Stats.group _) as [|s ?]; destruct c; simpl in *;
    by rewrite Hn, Hs, Hl.
Qed.

Lemma create_then_delete_witness :
  (deletePurchase Sample.shop 11
     (createPurchase 5000 Sample.shop 11 Sample.free_pens Sample.db0).1).1
  = Sample.db0.
Proof.
  apply (create_then_delete 5000 Sample.shop 11 7 Sample.free_pens Sample.db0
           Sample.alice).
  - vm_compute. reflexivity.
  - reflexivity.
  - vm_compute. reflexivity.
  - reflexivity.
  - vm_compute. discriminate.
  - intros c Hc. vm_compute in Hc. injection Hc as <-. vm_compute. done.
Defined.

(** * The lists of open payments and the daily summary *)

Section Lists.

Implicit Types (d : db) (p q : Purchase.t) (l : list Purchase.t).

Lemma sort_by_Permutation {A} (leb : A → A → bool) (l : list A) :
  sort_by leb l ≡ₚ l.
Proof. apply merge_sort_Permutation. Qed.

Lemma elem_of_sort_by {A} (leb : A → A → bool) (l : list A) (x : A) :
  x ∈ sort_by leb l ↔ x ∈ l.
Proof. by rewrite sort_by_Permutation. Qed.

Lemma length_sort_by {A} (leb : A → A → bool) (l : list A) :
  length (sort_by leb l) = length l.
Proof. by rewrite sort_by_Permutation. Qed.

Lemma sort_by_sorted {A} (leb : A → A → bool) (l : list A) :
  (∀ x y, leb x y = true ∨ leb y x = true) →
  (∀ x y z, leb x y = true → leb y z = true → leb x z = true) →
  StronglySorted (λ x y, leb x y = true) (sort_by leb l).
Proof.
  intros Htot Htrans. unfold sort_by.
  apply (@StronglySorted_merge_sort A (λ x y, leb x y = true)).
  - intros x y z. apply Htrans.
  - intros x y. apply Htot.
Qed.

Lemma elem_of_find_purchases (f : Purchase.t → bool) (ps : gmap nat Purchase.t) p :
  p ∈ find_purchases f ps ↔ f p = true ∧ ∃ i, ps !! i = Some p.
Proof. unfold find_purchases. by rewrite list_elem_of_filter, elem_of_documents. Qed.

Lemma dueDate_leb_total p q : dueDate_leb p q = true ∨ dueDate_leb q p = true.
Proof.
  unfold dueDate_leb.
  destruct (Purchase.dueDate p) as [a|], (Purchase.dueDate q) as [b|]; auto.
  destruct (Z.leb_spec a b), (Z.leb_spec b a); auto; lia.
Qed.

Lemma dueDate_leb_trans p q r :
  dueDate_leb p q = true → dueDate_leb q r = true → dueDate_leb p r = true.
Proof.
  unfold dueDate_leb.
  destruct (Purchase.dueDate p) as [a|], (Purchase.dueDate q) as [b|],
           (Purchase.dueDate r) as [c|]; try done.
  rewrite !Z.leb_le. lia.
Qed.

Lemma dueDate_then_latest_leb_total p q :
  dueDate_then_latest_leb p q = true ∨ dueDate_then_latest_leb q p = true.
Proof.
  unfold dueDate_then_latest_leb.
  destruct (decide (Purchase.dueDate p = Purchase.dueDate q)) as [E|E].
  - rewrite decide_True by done. rewrite !Z.leb_le. lia.
  - rewrite decide_False by done. apply dueDate_leb_total.
Qed.

Lemma dueDate_leb_antisym p q :
  dueDate_leb p q = true → dueDate_leb q p = true →
  Purchase.dueDate p = Purchase.dueDate q.
Proof.
  unfold dueDate_leb.
  destruct (Purchase.dueDate p) as [a|], (Purchase.dueDate q) as [b|]; try done.
  rewrite !Z.leb_le. intros. f_equal. lia.
Qed.

Lemma dueDate_leb_eq p q :
  Purchase.dueDate p = Purchase.dueDate q → dueDate_leb p q = true.
Proof.
  unfold dueDate_leb. intros ->.
  destruct (Purchase.dueDate q); [|done]. apply Z.leb_le. lia.
Qed.

Lemma dueDate_then_latest_leb_dueDate p q :
  dueDate_then_latest_leb p q = true → dueDate_leb p q = true.
Proof.
  unfold dueDate_then_latest_leb.
  destruct (decide _) as [E|E]; [|done]. intros _. by apply dueDate_leb_eq.
Qed.

Lemma dueDate_then_latest_leb_trans p q r :
  dueDate_then_latest_leb p q = true → dueDate_then_latest_leb q r = true →
  dueDate_then_latest_leb p r = true.
Proof.
  intros Hpq Hqr.
  pose proof (dueDate_then_latest_leb_dueDate _ _ Hpq) as Dpq.
  pose proof (dueDate_then_latest_leb_dueDate _ _ Hqr) as Dqr.
  pose proof (dueDate_leb_trans _ _ _ Dpq Dqr) as Dpr.
  unfold dueDate_then_latest_leb in *.
  destruct (decide (Purchase.dueDate p = Purchase.dueDate r)) as [Epr|Epr]; [|done].
  destruct (decide (Purchase.dueDate p = Purchase.dueDate q)) as [Epq|Epq].
  - rewrite decide_True in Hqr by congruence.
    apply Z.leb_le in Hpq, Hqr. apply Z.leb_le. lia.
  - exfalso. apply Epq. apply dueDate_leb_antisym; [done|].
    apply dueDate_leb_trans with r; [done|]. apply dueDate_leb_eq. congruence.
Qed.

(** The JavaScript sum of balances that are positive numbers is their sum,
    and it is positive unless the list is empty. *)
Lemma reduce_remainingAmount_from (s : Z) l :
  Forall (λ p, Js.gt0 (Purchase.remainingAmount p) = true) l →
  foldl (λ sum purchase, js_add sum (Purchase.remainingAmount purchase)) (Some s) l
  = Some (s + Daily.sum_remainingAmount l)
  ∧ 0 ≤ Daily.sum_remainingAmount l
  ∧ (Daily.sum_remainingAmount l = 0 ↔ l = []).
Proof.
  revert s. induction l as [|p l IH]; intros s Hall.
  { simpl. split; [f_equal; lia|]. by split. }
  apply Forall_cons in Hall as [Hp Hl].
  destruct (Purchase.remainingAmount p) as [x|] eqn:E; [|done].
  simpl in Hp. apply Z.ltb_lt in Hp.
  destruct (IH (s + x) Hl) as (Hsum & Hnn & _).
  simpl. rewrite E. simpl. rewrite Hsum. split; [f_equal; lia|].
  split; [lia|]. split; [lia|done].
Qed.

End Lists.

(** X13: [getPendingPayments] lists exactly the stored purchases of the
    caller's shop whose status is [pending] or [overdue] and whose balance
    is a positive number; [results] is their number; the total is the sum
    of their balances, which is 0 only for an empty list; and the list is
    in ascending order of due date, purchases without due date first and
    equal due dates by latest purchase first. *)
Theorem getPendingPayments_listing (user : nat) (d : db) :
  let r := getPendingPayments user d in
  (∀ p, p ∈ Listing.purchases r
        ↔ (∃ i, purchases d !! i = Some p)
          ∧ Purchase.createdBy p = user
          ∧ (Purchase.paymentStatus p = pending ∨ Purchase.paymentStatus p = overdue)
          ∧ ∃ x, Purchase.remainingAmount p = Some x ∧ 0 < x)
  ∧ Listing.results r = Z.of_nat (length (Listing.purchases r))
  ∧ (∃ t, Listing.totalAmount r = Some t
          ∧ t = Daily.sum_remainingAmount (Listing.purchases r)
          ∧ 0 ≤ t ∧ (t = 0 ↔ Listing.purchases r = []))
  ∧ StronglySorted (λ p q, dueDate_then_latest_leb p q = true) (Listing.purchases r).
Proof.
  intros r. subst r. unfold getPendingPayments. simpl.
  assert (Hmem : ∀ p,
    p ∈ sort_by dueDate_then_latest_leb (find_purchases (pending_filter user) (purchases d))
    ↔ (∃ i, purchases d !! i = Some p)
      ∧ Purchase.createdBy p = user
      ∧ (Purchase.paymentStatus p = pending ∨ Purchase.paymentStatus p = overdue)
      ∧ ∃ x, Purchase.remainingAmount p = Some x ∧ 0 < x).
  { intros p. rewrite elem_of_sort_by, elem_of_find_purchases.
    unfold pending_filter, Js.gt0.
    rewrite !andb_true_iff, orb_true_iff, !bool_decide_eq_true. split.
    - intros [[[Hby Hs] Hr] Hi]. repeat split; try done.
      destruct (Purchase.remainingAmount p) as [x|]; [|done].
      exists x. split; [done|]. by apply Z.ltb_lt.
    - intros (Hi & Hby & Hs & x & -> & Hx). repeat split; try done.
      by apply Z.ltb_lt. }
  split; [exact Hmem|]. split; [done|]. split.
  - destruct (reduce_remainingAmount_from 0
                (sort_by dueDate_then_latest_leb
                   (find_purchases (pending_filter user) (purchases d))))
      as (Hsum & Hnn & Hz).
    { apply Forall_forall. intros p (_ & _ & _ & x & -> & Hx)%Hmem.
      by apply Z.ltb_lt. }
    eexists. split; [exact Hsum|]. split; [lia|]. split; [lia|].
    rewrite <- Hz. lia.
  - apply sort_by_sorted;
      [apply dueDate_then_latest_leb_total | apply dueDate_then_latest_leb_trans].
Qed.

Lemma getPendingPayments_listing_witness :
  Sample.unpaid pending ∈ Listing.purchases (getPendingPayments Sample.shop Sample.db0).
Proof.
  apply (getPendingPayments_listing Sample.shop Sample.db0).
  split; [exists 10%nat; vm_compute; reflexivity|].
  split; [reflexivity|]. split; [by left|].
  exists 100. split; [reflexivity | lia].
Defined.

(** X14: [getOverduePayments] lists exactly the stored purchases of the
    caller's shop on which the virtual [isOverdue] is true at that time,
    whatever their stored status; the total is the sum of their balances,
    0 only for an empty list; the list is in ascending order of due date. *)
Theorem getOverduePayments_listing (now : Z) (user : nat) (d : db) :
  let r := getOverduePayments now user d in
  (∀ p, p ∈ Listing.purchases r
        ↔ (∃ i, purchases d !! i = Some p)
          ∧ Purchase.createdBy p = user
          ∧ Purchase.isOverdue now p = true)
  ∧ Listing.results r = Z.of_nat (length (Listing.purchases r))
  ∧ (∃ t, Listing.totalAmount r = Some t
          ∧ t = Daily.sum_remainingAmount (Listing.purchases r)
          ∧ 0 ≤ t ∧ (t = 0 ↔ Listing.purchases r = []))
  ∧ StronglySorted (λ p q, dueDate_leb p q = true) (Listing.purchases r).
Proof.
  intros r. subst r. unfold getOverduePayments. simpl.
  assert (Hmem : ∀ p,
    p ∈ sort_by dueDate_leb (find_purchases (overdue_filter now user) (purchases d))
    ↔ (∃ i, purchases d !! i = Some p)
      ∧ Purchase.createdBy p = user
      ∧ Purchase.isOverdue now p = true).
  { intros p. rewrite elem_of_sort_by, elem_of_find_purchases.
    unfold overdue_filter, Purchase.isOverdue.
    rewrite !andb_true_iff, !bool_decide_eq_true. split.
    - by intros [[[Hby Ha] Hr] Hi].
    - by intros (Hi & Hby & [Ha Hr]). }
  split; [exact Hmem|]. split; [done|]. split.
  - destruct (reduce_remainingAmount_from 0
                (sort_by dueDate_leb
                   (find_purchases (overdue_filter now user) (purchases d))))
      as (Hsum & Hnn & Hz).
    { apply Forall_forall. intros p (_ & _ & Ho)%Hmem.
      unfold Purchase.isOverdue in Ho. by apply andb_true_iff in Ho as [_ ?]. }
    eexists. split; [exact Hsum|]. split; [lia|]. split; [lia|].
    rewrite <- Hz. lia.
  - apply sort_by_sorted; [apply dueDate_leb_total | apply dueDate_leb_trans].
Qed.

Lemma getOverduePayments_listing_witness :
  Sample.cancelled_due
  ∈ Listing.purchases
      (getOverduePayments 5000 Sample.shop
         (set_purchases (<[12%nat := Sample.cancelled_due]> (purchases Sample.db0))
                        Sample.db0)).
Proof.
  apply (getOverduePayments_listing 5000 Sample.shop).
  split; [exists 12%nat; vm_compute; reflexivity|].
  split; reflexivity.
Defined.

Section Daily.

Implicit Types (l : list Purchase.t).

Lemma count_status_bounds (s : paymentStatus_t) l :
  0 ≤ Daily.count_status s l ≤ Stats.count l.
Proof.
  unfold Stats.count. induction l as [|p l IH]; simpl; [lia|].
  destruct (decide _); lia.
Qed.

Lemma count_status_disjoint (s s' : paymentStatus_t) l :
  s ≠ s' → Daily.count_status s l + Daily.count_status s' l ≤ Stats.count l.
Proof.
  intros Hne. unfold Stats.count. induction l as [|p l IH]; simpl; [lia|].
  destruct (decide (Purchase.paymentStatus p = s)),
           (decide (Purchase.paymentStatus p = s')); try lia. congruence.
Qed.

Lemma elem_of_match_period user from to (ps : gmap nat Purchase.t) (p : Purchase.t) :
  p ∈ match_period user from to ps ↔ in_period user from to p = true ∧ ∃ i, ps !! i = Some p.
Proof. unfold match_period. by rewrite list_elem_of_filter, elem_of_documents. Qed.

End Daily.

(** X15: the daily summary is all zeros when the shop has no purchase in
    the day; otherwise [transactionCount] is the number of the day's
    purchases and is at least 1.  [completedPayments] and [pendingPayments]
    are not negative and together do not exceed [transactionCount]. *)
Theorem getDailySummary_summary (user : nat) (startOfDay endOfDay : Z) (d : db) :
  let docs := match_period user startOfDay (Some endOfDay) (purchases d) in
  let s := getDailySummary user startOfDay endOfDay d in
  (docs = [] → s = Daily.zero)
  ∧ (docs ≠ [] → Daily.transactionCount s = Stats.count docs
                 ∧ 1 ≤ Daily.transactionCount s)
  ∧ 0 ≤ Daily.completedPayments s
  ∧ 0 ≤ Daily.pendingPayments s
  ∧ Daily.completedPayments s + Daily.pendingPayments s ≤ Daily.transactionCount s.
Proof.
  intros docs s. subst s. unfold getDailySummary. fold docs.
  destruct docs as [|p0 rest] eqn:E.
  - simpl. repeat split; try done; lia.
  - cbn [Daily.group]. cbv iota. cbn [Daily.transactionCount Daily.completedPayments
      Daily.pendingPayments].
    split; [done|]. split.
    { intros _. split; [done|]. unfold Stats.count. simpl. lia. }
    split; [apply count_status_bounds|]. split; [apply count_status_bounds|].
    by apply count_status_disjoint.
Qed.

Lemma getDailySummary_summary_witness :
  let s := getDailySummary Sample.shop 0 2000 Sample.db0 in
  Daily.transactionCount s = 1
  ∧ getDailySummary Sample.shop 3000 4000 Sample.db0 = Daily.zero.
Proof.
  split.
  - destruct (getDailySummary_summary Sample.shop 0 2000 Sample.db0)
      as (_ & Hn & _).
    destruct Hn as [Hn _]; [vm_compute; discriminate|].
    rewrite Hn. vm_compute. reflexivity.
  - destruct (getDailySummary_summary Sample.shop 3000 4000 Sample.db0)
      as (Hz & _).
    apply Hz. vm_compute. reflexivity.
Defined.

(** * The dashboard *)

Section Dashboard.

Implicit Types (d : db) (p : Purchase.t).

Lemma length_filter_mono {A} (f g : A → bool) (l : list A) :
  (∀ x, f x = true → g x = true) →
  (length (filter (λ x, f x = true) l) ≤ length (filter (λ x, g x = true) l))%nat.
Proof.
  intros Hfg. induction l as [|x l IH]; [done|].
  rewrite !filter_cons.
  destruct (decide (f x = true)) as [Hf|Hf].
  - rewrite decide_True by auto. simpl. lia.
  - destruct (decide (g x = true)); simpl; lia.
Qed.

Lemma countDocuments_mono {A} (f g : A → bool) (m : gmap nat A) :
  (∀ x, f x = true → g x = true) → countDocuments f m ≤ countDocuments g m.
Proof.
  intros Hfg. unfold countDocuments.
  apply inj_le. by apply length_filter_mono.
Qed.

Lemma countDocuments_nonneg {A} (f : A → bool) (m : gmap nat A) :
  0 ≤ countDocuments f m.
Proof. unfold countDocuments. lia. Qed.

Lemma in_period_mono user from from' p :
  from' ≤ from → in_period user from None p = true → in_period user from' None p = true.
Proof.
  unfold in_period. rewrite !andb_true_iff, !Z.leb_le.
  intros Hle [[Hby Hd] _]. repeat split; [done|lia].
Qed.

Lemma in_period_of_shop user from to p :
  in_period user from to p = true → of_shop user p = true.
Proof. unfold in_period, of_shop. rewrite !andb_true_iff. by intros [[? _] _]. Qed.

Lemma reduce_remainingAmount_positive (l : list Purchase.t) :
  Forall (λ p, Js.gt0 (Purchase.remainingAmount p) = true) l →
  reduce_remainingAmount l = Some (Daily.sum_remainingAmount l).
Proof.
  intros H. unfold reduce_remainingAmount.
  by destruct (reduce_remainingAmount_from 0 l H) as [-> _].
Qed.

Lemma find_purchases_positive (f : Purchase.t → bool) (ps : gmap nat Purchase.t) :
  (∀ x, f x = true → Js.gt0 (Purchase.remainingAmount x) = true) →
  Forall (λ p, Js.gt0 (Purchase.remainingAmount p) = true) (find_purchases f ps).
Proof.
  intros H. apply Forall_forall. intros p [Hf _]%elem_of_find_purchases. auto.
Qed.

Lemma pending_only_filter_pending user p :
  pending_only_filter user p = true → pending_filter user p = true.
Proof.
  unfold pending_only_filter, pending_filter.
  rewrite !andb_true_iff, orb_true_iff. intros [[? ?] ?]. auto.
Qed.

Lemma pending_filter_positive user p :
  pending_filter user p = true → Js.gt0 (Purchase.remainingAmount p) = true.
Proof. unfold pending_filter. rewrite !andb_true_iff. by intros [_ ?]. Qed.

Lemma overdue_filter_positive now user p :
  overdue_filter now user p = true → Js.gt0 (Purchase.remainingAmount p) = true.
Proof. unfold overdue_filter. rewrite !andb_true_iff. by intros [_ ?]. Qed.

End Dashboard.

(** X16: in the overview, [inactive] is [total - active] and neither it nor
    [active] is negative; the purchases of today are among those of the week
    and of the month when the week and the month start no later than the
    day, and none of the three counts exceeds the total. *)
Theorem getDashboardOverview_counts
    (user : nat) (today startOfToday startOfWeek startOfMonth : Z) (d : db) :
  let o := getDashboardOverview user today startOfToday startOfWeek startOfMonth d in
  Overview.customers_active o + Overview.customers_inactive o
  = Overview.customers_total o
  ∧ 0 ≤ Overview.customers_active o
  ∧ 0 ≤ Overview.customers_inactive o
  ∧ (startOfWeek ≤ startOfToday →
     Overview.purchases_today o ≤ Overview.purchases_thisWeek o)
  ∧ (startOfMonth ≤ startOfToday →
     Overview.purchases_today o ≤ Overview.purchases_thisMonth o)
  ∧ Overview.purchases_today o ≤ Overview.purchases_total o
  ∧ Overview.purchases_thisWeek o ≤ Overview.purchases_total o
  ∧ Overview.purchases_thisMonth o ≤ Overview.purchases_total o.
Proof.
  intros o. subst o. unfold getDashboardOverview. simpl.
  assert (countDocuments (active_customer_of_shop user) (customers d)
          ≤ countDocuments (customer_of_shop user) (customers d)) as Hact.
  { apply countDocuments_mono. intros c. unfold active_customer_of_shop.
    rewrite andb_true_iff. by intros [? _]. }
  pose proof (countDocuments_nonneg (active_customer_of_shop user) (customers d)).
  split; [lia|]. split; [done|]. split; [lia|].
  split; [intros Hle; apply countDocuments_mono; intros p; by apply in_period_mono|].
  split; [intros Hle; apply countDocuments_mono; intros p; by apply in_period_mono|].
  repeat split; apply countDocuments_mono; intros p; apply in_period_of_shop.
Qed.

Lemma getDashboardOverview_counts_witness :
  let o := getDashboardOverview Sample.shop 1500 1400 1200 900 Sample.db0 in
  Overview.purchases_today o ≤ Overview.purchases_thisWeek o
  ∧ Overview.purchases_today o ≤ Overview.purchases_thisMonth o.
Proof.
  destruct (getDashboardOverview_counts Sample.shop 1500 1400 1200 900 Sample.db0)
    as (_ & _ & _ & Hw & Hm & _).
  split; [apply Hw | apply Hm]; lia.
Defined.

(** X17: the overview counts as overdue exactly the purchases that
    [getOverduePayments] lists at the same time.  Its pending count takes
    only the status [pending], so it does not exceed the number of purchases
    [getPendingPayments] lists, which also takes the status [overdue].  The
    pending and the overdue amount are sums of positive balances: both are
    numbers and neither is negative. *)
Theorem getDashboardOverview_payments
    (user : nat) (today startOfToday startOfWeek startOfMonth : Z) (d : db) :
  let o := getDashboardOverview user today startOfToday startOfWeek startOfMonth d in
  Overview.overdue_count o = Listing.results (getOverduePayments today user d)
  ∧ Overview.pending_count o ≤ Listing.results (getPendingPayments user d)
  ∧ (∃ a, Overview.pending_amount o = Some a ∧ 0 ≤ a)
  ∧ (∃ a, Overview.overdue_amount o = Some a ∧ 0 ≤ a).
Proof.
  intros o. subst o. unfold getDashboardOverview, getOverduePayments,
    getPendingPayments. simpl.
  split; [by rewrite length_sort_by|].
  split.
  { rewrite length_sort_by. apply inj_le.
    apply length_filter_mono, pending_only_filter_pending. }
  split.
  - eexists. split.
    + apply reduce_remainingAmount_positive, find_purchases_positive.
      intros x Hx. by apply (pending_filter_positive user), pending_only_filter_pending.
    + eapply reduce_remainingAmount_from with (s := 0), find_purchases_positive.
      intros x Hx. by apply (pending_filter_positive user), pending_only_filter_pending.
  - eexists. split.
    + apply reduce_remainingAmount_positive, find_purchases_positive,
        overdue_filter_positive.
    + eapply reduce_remainingAmount_from with (s := 0), find_purchases_positive,
        overdue_filter_positive.
Qed.

Section Revenue.

Local Open Scope Q_scope.

Lemma toFixed_2_percent (x : Q) : 0 <= x → x <= 100 → 0 <= toFixed 2 x ∧ toFixed 2 x <= 100.
Proof.
  intros H0 H100. unfold toFixed.
  change (Z.to_pos (10 ^ Z.of_nat 2)) with 100%positive.
  change (inject_Z (Z.pos 100)) with 100.
  rewrite (proj2 (Qle_bool_iff 0 x) H0). rewrite (Qabs_pos x H0).
  assert (0 <= Qfloor (x * 100 + (1 # 2)) <= 10000)%Z as [Hlo Hhi].
  { split.
    - change 0%Z with (Qfloor 0). apply Qfloor_resp_le. lra.
    - change 10000%Z with (Qfloor (10000 + (1 # 2))). apply Qfloor_resp_le. lra. }
  set (n := Qfloor (x * 100 + (1 # 2))) in *. clearbody n.
  unfold Qle. simpl. split; lia.
Qed.

End Revenue.

Section RevenueSums.

Implicit Types (l : list Purchase.t).

Lemma sums_nonneg l :
  Forall (λ p, Purchase.valid p = true) l →
  0 ≤ Stats.sum_totalAmount l ∧ 0 ≤ Month.sum_paidAmount l.
Proof.
  induction 1 as [|p l Hv Hl [IH1 IH2]]; simpl; [done|].
  unfold Purchase.valid in Hv.
  destruct (Purchase.totalAmount p) as [a|]; [|done].
  rewrite !andb_true_iff, !Z.leb_le in Hv. simpl. lia.
Qed.

End RevenueSums.

(** X18: the overview's collection rate is exactly 0 when the shop's total
    revenue is 0, and otherwise [collected / total * 100] rounded to two
    decimals.  When every stored purchase passes the validators, neither
    [total] nor [collected] is negative, and the rate lies between 0 and 100
    unless more was collected than sold. *)
Theorem getDashboardOverview_revenue
    (user : nat) (today startOfToday startOfWeek startOfMonth : Z) (d : db) :
  let o := getDashboardOverview user today startOfToday startOfWeek startOfMonth d in
  (Overview.revenue_total o = 0 → Overview.collectionRate o = 0%Q)
  ∧ (0 < Overview.revenue_total o →
     rounded_to_cents (Overview.collectionRate o)
       ((inject_Z (Overview.revenue_collected o)
         / inject_Z (Overview.revenue_total o)) * 100)%Q)
  ∧ ((∀ i p, purchases d !! i = Some p → Purchase.valid p = true) →
     0 ≤ Overview.revenue_total o
     ∧ 0 ≤ Overview.revenue_collected o
     ∧ (Overview.revenue_collected o ≤ Overview.revenue_total o →
        (0 <= Overview.collectionRate o)%Q ∧ (Overview.collectionRate o <= 100)%Q)).
Proof.
  intros o. subst o. unfold getDashboardOverview.
  cbn [Overview.revenue_total Overview.revenue_collected Overview.collectionRate].
  set (docs := find_purchases (of_shop user) (purchases d)).
  set (revenue := match Revenue.group docs with r :: _ => r | [] => Revenue.zero end).
  unfold collection_rate.
  split; [by intros ->|]. split.
  { intros H. apply Z.ltb_lt in H. rewrite H. apply toFixed_2_rounded. }
  intros Hall.
  assert (Forall (λ p, Purchase.valid p = true) docs) as HF.
  { apply Forall_forall. intros p [_ [i Hi]]%elem_of_find_purchases. eauto. }
  assert (0 ≤ Revenue.totalRevenue revenue ∧ 0 ≤ Revenue.totalPaid revenue)
    as (Ht & Hc).
  { subst revenue. destruct docs as [|p0 rest] eqn:E; [done|].
    cbn [Revenue.group]. cbv iota.
    cbn [Revenue.totalRevenue Revenue.totalPaid].
    by apply sums_nonneg. }
  split; [done|]. split; [done|].
  intros Hle. destruct (Z.ltb_spec 0 (Revenue.totalRevenue revenue)) as [Hpos|_];
    [|split; apply Qle_refl || (unfold Qle; simpl; lia)].
  set (t := Revenue.totalRevenue revenue) in *.
  set (c := Revenue.totalPaid revenue) in *.
  clearbody t c.
  assert (0 < inject_Z t)%Q as Qt by (unfold Qlt; simpl; lia).
  assert (0 <= inject_Z c)%Q as Qc by (unfold Qle; simpl; lia).
  assert (inject_Z c <= inject_Z t)%Q as Qct by (unfold Qle; simpl; lia).
  apply toFixed_2_percent.
  - apply Qmult_le_0_compat; [|by unfold Qle].
    apply Qle_shift_div_l; [done|]. by rewrite Qmult_0_l.
  - apply Qle_trans with (1 * 100)%Q; [|by unfold Qle].
    apply Qmult_le_compat_r; [|by unfold Qle].
    apply Qle_shift_div_r; [done|]. by rewrite Qmult_1_l.
Qed.

Lemma getDashboardOverview_revenue_witness :
  let o := getDashboardOverview Sample.shop 1500 1400 1200 900 Sample.db1 in
  rounded_to_cents (Overview.collectionRate o) ((inject_Z 0 / inject_Z 700) * 100)%Q.
Proof.
  destruct (getDashboardOverview_revenue Sample.shop 1500 1400 1200 900 Sample.db1)
    as (_ & H & _).
  apply H. vm_compute. reflexivity.
Defined.

Section Distribution.

Implicit Types (docs : list Purchase.t) (s : paymentStatus_t).

Lemma sum_counts_app (a b : list Distribution.t) :
  sum_counts (a ++ b) = sum_counts a + sum_counts b.
Proof. induction a as [|r a IH]; simpl; lia. Qed.

Lemma status_group_sums docs s :
  sum_counts (status_group docs s)
  = Stats.count (filter (λ p, Purchase.paymentStatus p = s) docs).
Proof.
  unfold status_group.
  destruct (filter _ docs) as [|p g]; [done|]. simpl. lia.
Qed.

Lemma status_partition docs :
  Stats.count (filter (λ p, Purchase.paymentStatus p = pending) docs)
  + Stats.count (filter (λ p, Purchase.paymentStatus p = completed) docs)
  + Stats.count (filter (λ p, Purchase.paymentStatus p = overdue) docs)
  + Stats.count (filter (λ p, Purchase.paymentStatus p = cancelled) docs)
  = Stats.count docs.
Proof.
  unfold Stats.count. induction docs as [|p docs IH]; [done|].
  rewrite !filter_cons.
  destruct (Purchase.paymentStatus p) eqn:E; simpl;
    repeat (destruct (decide _) as [?|?]; try congruence); simpl; lia.
Qed.

Lemma elem_of_status_group docs s (r : Distribution.t) :
  r ∈ status_group docs s →
  Distribution._id r = s
  ∧ 1 ≤ Distribution.count r
  ∧ ∃ p, p ∈ docs ∧ Purchase.paymentStatus p = s.
Proof.
  unfold status_group.
  destruct (filter _ docs) as [|p g] eqn:E; [by intros ?%not_elem_of_nil|].
  intros ->%list_elem_of_singleton. simpl. split; [done|].
  split; [unfold Stats.count; simpl; lia|].
  assert (p ∈ filter (λ p, Purchase.paymentStatus p = s) docs) as Hp
    by (rewrite E; left).
  apply list_elem_of_filter in Hp as [? ?]. by exists p.
Qed.

Lemma status_group_nonempty docs s p :
  p ∈ docs → Purchase.paymentStatus p = s →
  ∃ r, status_group docs s = [r] ∧ Distribution._id r = s.
Proof.
  intros Hp Hs. unfold status_group.
  destruct (filter _ docs) as [|p' g] eqn:E.
  - assert (p ∈ filter (λ p, Purchase.paymentStatus p = s) docs) as H
      by (by apply list_elem_of_filter).
    rewrite E in H. by apply not_elem_of_nil in H.
  - by eexists.
Qed.

Lemma status_group_ids docs s :
  Distribution._id <$> status_group docs s = []
  ∨ Distribution._id <$> status_group docs s = [s].
Proof. unfold status_group. destruct (filter _ docs); auto. Qed.

End Distribution.

(** X19: the rows of the status distribution count every purchase of the
    caller's shop once: their counts add up to the number of the shop's
    purchases.  There is a row for a status exactly when some purchase of
    the shop has it, no row has a count below 1, and no status has two
    rows. *)
Theorem getPurchaseStatusDistribution_rows (user : nat) (d : db) :
  let rows := getPurchaseStatusDistribution user d in
  sum_counts rows = countDocuments (of_shop user) (purchases d)
  ∧ (∀ r, r ∈ rows → 1 ≤ Distribution.count r)
  ∧ NoDup (Distribution._id <$> rows)
  ∧ ∀ s, (∃ r, r ∈ rows ∧ Distribution._id r = s)
         ↔ ∃ i p, purchases d !! i = Some p
                  ∧ Purchase.createdBy p = user
                  ∧ Purchase.paymentStatus p = s.
Proof.
  intros rows. subst rows. unfold getPurchaseStatusDistribution.
  set (docs := find_purchases (of_shop user) (purchases d)).
  pose proof (status_partition docs) as Hcount.
  split; [|split; [|split]].
  - rewrite !sum_counts_app.
    rewrite !status_group_sums. unfold countDocuments.
    fold (find_purchases (of_shop user) (purchases d)). fold docs.
    unfold Stats.count in *. lia.
  - intros r. rewrite !elem_of_app.
    intros [H|[H|[H|H]]]; by apply elem_of_status_group in H as (_ & ? & _).
  - rewrite !fmap_app.
    destruct (status_group_ids docs pending) as [-> | ->],
             (status_group_ids docs completed) as [-> | ->],
             (status_group_ids docs overdue) as [-> | ->],
             (status_group_ids docs cancelled) as [-> | ->];
      simpl; by apply (bool_decide_unpack _).
  - intros s. split.
    + intros (r & Hr & Hid). rewrite !elem_of_app in Hr.
      assert (∃ p, p ∈ docs ∧ Purchase.paymentStatus p = s) as (p & Hp & Hs).
      { destruct Hr as [H|[H|[H|H]]];
          apply elem_of_status_group in H as (Hid' & _ & p & Hp & Hs);
          exists p; split; congruence || done. }
      apply elem_of_find_purchases in Hp as [Hby [i Hi]].
      exists i, p. split; [done|]. split; [|done].
      unfold of_shop in Hby. by apply bool_decide_eq_true in Hby.
    + intros (i & p & Hi & Hby & Hs).
      assert (p ∈ docs) as Hp.
      { apply elem_of_find_purchases. split; [|by exists i].
        unfold of_shop. by apply bool_decide_eq_true. }
      destruct (status_group_nonempty docs s p Hp Hs) as (r & Hr & Hid).
      exists r. split; [|done]. rewrite !elem_of_app.
      destruct s; rewrite Hr; set_solver.
Qed.

Lemma getPurchaseStatusDistribution_rows_witness :
  ∃ r, r ∈ getPurchaseStatusDistribution Sample.shop Sample.db0
       ∧ Distribution._id r = pending.
Proof.
  apply (getPurchaseStatusDistribution_rows Sample.shop Sample.db0).
  exists 10%nat, (Sample.unpaid pending).
  split; [vm_compute; reflexivity|]. by split.
Defined.

Section TopCustomers.

Lemma TopCustomer_leb_total (x y : nat * Customer.t) :
  TopCustomer.leb x y = true ∨ TopCustomer.leb y x = true.
Proof. unfold TopCustomer.leb. rewrite !Z.leb_le. lia. Qed.

Lemma TopCustomer_leb_trans (x y z : nat * Customer.t) :
  TopCustomer.leb x y = true → TopCustomer.leb y z = true →
  TopCustomer.leb x z = true.
Proof. unfold TopCustomer.leb. rewrite !Z.leb_le. lia. Qed.

Lemma NoDup_fmap_filter_fst {A} (m : gmap nat A) (P : nat * A → Prop)
    `{∀ x, Decision (P x)} :
  NoDup (filter P (map_to_list m)).*1.
Proof.
  pose proof (NoDup_fst_map_to_list m) as Hnd.
  induction (map_to_list m) as [|x l IH]; [constructor|].
  csimpl in Hnd. apply NoDup_cons in Hnd as [Hx Hl].
  rewrite filter_cons. destruct (decide (P x)); [|by apply IH].
  csimpl. apply NoDup_cons. split; [|by apply IH].
  intros (y & Hy1 & Hy2%list_elem_of_filter)%list_elem_of_fmap.
  apply Hx. apply list_elem_of_fmap. exists y. by destruct Hy2.
Qed.

(** [limit] keeps a prefix. *)
Lemma mongo_limit_prefix {A} (n : Z) (l : list A) :
  ∃ rest, l = mongo_limit n l ++ rest
          ∧ (n = 0 → rest = [])
          ∧ (0 < n → (length (mongo_limit n l) ≤ Z.to_nat n)%nat).
Proof.
  unfold mongo_limit. destruct (Z.eqb_spec n 0) as [->|Hn].
  - exists []. split; [by rewrite app_nil_r|]. split; [done|lia].
  - exists (drop (Z.to_nat (Z.abs n)) l). split; [by rewrite take_drop|].
    split; [done|]. intros Hpos. rewrite length_take. lia.
Qed.

End TopCustomers.

(** X20: [getTopCustomers] answers with customers of the caller's shop, each
    at most once, in descending order of [totalSpent], and with at most
    [limit] of them when [limit] is positive.  A customer of the shop that
    is left out has spent no more than any customer in the answer. *)
Theorem getTopCustomers_top (user : nat) (limit : Z) (d : db) :
  let top := getTopCustomers user limit d in
  (∀ t, t ∈ top →
        ∃ c, customers d !! TopCustomer._id t = Some c
             ∧ Customer.createdBy c = user
             ∧ t = TopCustomer.select (TopCustomer._id t, c))
  ∧ NoDup (TopCustomer._id <$> top)
  ∧ StronglySorted (λ t u, TopCustomer.totalSpent u ≤ TopCustomer.totalSpent t) top
  ∧ (0 < limit → Z.of_nat (length top) ≤ limit)
  ∧ (∀ id c t, customers d !! id = Some c → Customer.createdBy c = user →
               id ∉ TopCustomer._id <$> top → t ∈ top →
               Customer.totalSpent c ≤ TopCustomer.totalSpent t).
Proof.
  intros top. subst top. unfold getTopCustomers.
  set (l := filter (λ x, customer_of_shop user x.2 = true) (map_to_list (customers d))).
  set (sorted := sort_by TopCustomer.leb l).
  destruct (mongo_limit_prefix limit sorted) as (rest & Hsplit & Hzero & Hlen).
  set (kept := mongo_limit limit sorted) in *.
  assert (Hl : ∀ x, x ∈ l ↔ customers d !! x.1 = Some x.2 ∧ Customer.createdBy x.2 = user).
  { intros [id c]. subst l. rewrite list_elem_of_filter, elem_of_map_to_list.
    unfold customer_of_shop. simpl. rewrite bool_decide_eq_true. tauto. }
  assert (Hkept : ∀ x, x ∈ kept → x ∈ l).
  { intros x Hx. apply (elem_of_sort_by TopCustomer.leb). fold sorted.
    rewrite Hsplit. apply elem_of_app. by left. }
  assert (Hsorted : StronglySorted (λ x y, TopCustomer.leb x y = true) sorted).
  { apply sort_by_sorted; [apply TopCustomer_leb_total | apply TopCustomer_leb_trans]. }
  assert (Hnd : NoDup sorted.*1).
  { subst sorted. rewrite sort_by_Permutation. subst l.
    apply (NoDup_fmap_filter_fst (customers d)). }
  split; [|split; [|split; [|split]]].
  - intros t (x & -> & Hx)%list_elem_of_fmap. apply Hkept, Hl in Hx as [Hc Hby].
    exists x.2. simpl. split; [done|]. split; [done|]. by destruct x.
  - rewrite Hsplit, fmap_app in Hnd. apply NoDup_app in Hnd as [Hnd _].
    by rewrite <- list_fmap_compose.
  - rewrite Hsplit in Hsorted. apply StronglySorted_app_1_l in Hsorted.
    eapply StronglySorted_fmap; [|exact Hsorted].
    intros x y. unfold TopCustomer.leb. simpl. by rewrite Z.leb_le.
  - intros Hpos. rewrite length_fmap. specialize (Hlen Hpos). lia.
  - intros id c t Hc Hby Hout (x & -> & Hx)%list_elem_of_fmap.
    assert ((id, c) ∈ sorted) as Hin.
    { apply elem_of_sort_by, Hl. by split. }
    rewrite Hsplit in Hin. apply elem_of_app in Hin as [Hin|Hin].
    + exfalso. apply Hout. apply list_elem_of_fmap.
      exists (TopCustomer.select (id, c)). split; [done|].
      apply list_elem_of_fmap. by exists (id, c).
    + rewrite Hsplit in Hsorted.
      pose proof (StronglySorted_app_1_elem_of _ _ _ _ _ Hsorted Hx Hin) as Hle.
      unfold TopCustomer.leb in Hle. simpl in *. by apply Z.leb_le in Hle.
Qed.

Lemma getTopCustomers_top_witness :
  Z.of_nat (length (getTopCustomers Sample.shop 1 Sample.db0)) ≤ 1.
Proof.
  destruct (getTopCustomers_top Sample.shop 1 Sample.db0) as (_ & _ & _ & H & _).
  apply H. lia.
Defined.

(** * The other customer routes *)

(** X21: when no customer with the given id belongs to the caller's shop,
    [getCustomer] and [deleteCustomer] fail with a 404 error, not a 403 one,
    and change nothing, and [getCustomerPurchases] fails with the same error
    before it queries any purchase. *)
Theorem foreign_or_missing_customer_not_found
    (user id : nat) (page limit : Z) (d : db) :
  (∀ c, customers d !! id = Some c → Customer.createdBy c ≠ user) →
  fails_not_found d (getCustomer user id d)
  ∧ fails_not_found d (deleteCustomer user id d)
  ∧ ∃ e, getCustomerPurchases user id page limit d = Some (Next e)
         ∧ NotFoundError e ∧ ¬ ForbiddenError e.
Proof.
  intros H%findOne_customer_None.
  unfold getCustomer, deleteCustomer, getCustomerPurchases.
  rewrite H. repeat split; try apply not_found_404.
  exists (HttpError 404 "Customer not found"). split; [done|].
  split; [by eexists|]. intros [m Hm]. discriminate Hm.
Qed.

Lemma foreign_or_missing_customer_not_found_witness :
  fails_not_found Sample.db0 (getCustomer Sample.other_shop 7 Sample.db0)
  ∧ fails_not_found Sample.db0 (deleteCustomer Sample.other_shop 7 Sample.db0).
Proof.
  destruct (foreign_or_missing_customer_not_found Sample.other_shop 7 1 10
              Sample.db0) as (H1 & H2 & _).
  - intros c Hc. vm_compute in Hc. injection Hc as <-. vm_compute. discriminate.
  - by split.
Defined.

(** * Pagination *)

Section Pagination.

Lemma ceil_div_spec (a b : Z) :
  0 ≤ a → 1 ≤ b →
  ∃ n, ceil_div a b = Some n ∧ 0 ≤ n ∧ (n - 1) * b < a ≤ n * b.
Proof.
  intros Ha Hb. unfold ceil_div.
  destruct (Z.eqb_spec b 0); [lia|].
  eexists. split; [done|].
  pose proof (Z.div_mod (- a) b ltac:(lia)) as Hdm.
  pose proof (Z.mod_pos_bound (- a) b ltac:(lia)) as Hm.
  nia.
Qed.

Lemma mongo_skip_limit {A} (page limit : Z) (l : list A) :
  1 ≤ page → 1 ≤ limit →
  ∃ skipped, mongo_skip ((page - 1) * limit) l = Some skipped
             ∧ mongo_limit limit skipped
               = take (Z.to_nat limit) (drop (Z.to_nat (page - 1) * Z.to_nat limit) l).
Proof.
  intros Hp Hl. unfold mongo_skip, mongo_limit.
  destruct (Z.ltb_spec ((page - 1) * limit) 0); [nia|].
  destruct (Z.eqb_spec limit 0); [lia|].
  eexists. split; [done|].
  rewrite Z.abs_eq by lia. do 2 f_equal. rewrite Z2Nat.inj_mul by lia. done.
Qed.

(** The first [n] pages of size [k], one after the other, are the first
    [n * k] elements. *)
Lemma concat_pages {A} (k n : nat) (l : list A) :
  concat ((λ i, take k (drop (i * k) l)) <$> seq 0 n) = take (n * k) l.
Proof.
  induction n as [|n IH]; [done|].
  rewrite seq_S, fmap_app, concat_app, IH. simpl. rewrite app_nil_r.
  rewrite take_take_drop. f_equal. lia.
Qed.

Lemma StronglySorted_mono {A} (R R' : relation A) (l : list A) :
  (∀ x y, R x y → R' x y) → StronglySorted R l → StronglySorted R' l.
Proof.
  intros H. induction 1 as [|x l Hl IH Hx]; constructor; [done|].
  eapply Forall_impl; [exact Hx|]. intros y. apply H.
Qed.

Lemma NoDup_fmap_elem_inj {A B} (f : A → B) (l : list A) (x y : A) :
  NoDup (f <$> l) → x ∈ l → y ∈ l → f x = f y → x = y.
Proof.
  induction l as [|z l IH]; csimpl; [by intros _ ?%not_elem_of_nil|].
  intros [Hz Hl]%NoDup_cons Hx Hy E.
  apply elem_of_cons in Hx as [->|Hx]; apply elem_of_cons in Hy as [->|Hy].
  - done.
  - exfalso. apply Hz. rewrite E. by apply list_elem_of_fmap_2.
  - exfalso. apply Hz. rewrite <- E. by apply list_elem_of_fmap_2.
  - by apply IH.
Qed.

(** A list in descending order of distinct keys is in strictly descending
    order. *)
Lemma StronglySorted_distinct {A} (f : A → Z) (l : list A) :
  StronglySorted (λ p q, f q ≤ f p) l →
  NoDup (f <$> l) →
  StronglySorted (λ p q, f q < f p) l.
Proof.
  induction 1 as [|x l Hl IH Hx]; csimpl; [constructor|].
  intros [Hnx Hnd]%NoDup_cons. constructor; [by apply IH|].
  apply Forall_forall. intros y Hy.
  rewrite Forall_forall in Hx. specialize (Hx y Hy).
  assert (f y ≠ f x); [|lia].
  intros E. apply Hnx. rewrite <- E. by apply list_elem_of_fmap_2.
Qed.

End Pagination.

(** X23: for a customer of the caller's shop and [page >= 1], [limit >= 1],
    [getCustomerPurchases] answers 200 with at most [limit] purchases, all
    of that customer; [results] is their number, [totalResults] the number
    of the customer's purchases, and [totalPages] the least [n] with
    [n * limit >= totalResults].  The page is empty exactly when [page] is
    beyond [totalPages]. *)
Theorem getCustomerPurchases_page
    (user id : nat) (page limit : Z) (d : db) (c : Customer.t) :
  findOne_customer id user (customers d) = Some c →
  1 ≤ page → 1 ≤ limit →
  ∃ pg n,
    getCustomerPurchases user id page limit d = Some (Sent 200 pg)
    ∧ Page.results pg = Z.of_nat (length (Page.purchases pg))
    ∧ Page.results pg ≤ limit
    ∧ (∀ p, p ∈ Page.purchases pg → p ∈ match_customer id (purchases d))
    ∧ Page.currentPage pg = page
    ∧ Page.totalResults pg = Stats.count (match_customer id (purchases d))
    ∧ Page.totalPages pg = Some n
    ∧ (n - 1) * limit < Page.totalResults pg ≤ n * limit
    ∧ (Page.purchases pg = [] ↔ n < page).
Proof.
  intros Hf Hp Hl. unfold getCustomerPurchases. rewrite Hf.
  set (sorted := sort_by latest_first_leb (match_customer id (purchases d))).
  destruct (mongo_skip_limit page limit sorted Hp Hl) as (skipped & -> & Hlim).
  rewrite Hlim.
  assert (length sorted = length (match_customer id (purchases d))) as Hlen
    by apply length_sort_by.
  destruct (ceil_div_spec (Stats.count (match_customer id (purchases d))) limit)
    as (n & Hn & Hn0 & Hbounds); [unfold Stats.count; lia | done |].
  eexists _, n. split; [done|]. simpl.
  split; [done|]. split; [rewrite length_take; lia|].
  split.
  { intros p Hin. apply (elem_of_sort_by latest_first_leb). fold sorted.
    by apply (subseteq_drop (Z.to_nat (page - 1) * Z.to_nat limit)),
             (subseteq_take (Z.to_nat limit)). }
  split; [done|]. split; [done|]. split; [done|]. split; [done|].
  unfold Stats.count in Hbounds. rewrite <- Hlen in Hbounds.
  rewrite <- length_zero_iff_nil, length_take, length_drop. nia.
Qed.

Lemma getCustomerPurchases_page_witness :
  ∃ pg, getCustomerPurchases Sample.shop 7 1 10 Sample.db0 = Some (Sent 200 pg)
        ∧ Page.totalResults pg = 1
        ∧ Page.totalPages pg = Some 1.
Proof.
  destruct (getCustomerPurchases_page Sample.shop 7 1 10 Sample.db0 Sample.alice)
    as (pg & n & E & _ & _ & _ & _ & Ht & Hn & Hb & _).
  - vm_compute. reflexivity.
  - lia.
  - lia.
  - exists pg. split; [exact E|].
    assert (Page.totalResults pg = 1) as H1 by (rewrite Ht; vm_compute; reflexivity).
    split; [exact H1|]. rewrite Hn. f_equal. lia.
Defined.

(** X24: when the customer's purchases have pairwise distinct purchase
    dates, the pages partition them: for [limit >= 1], pages 1 to
    [totalPages], one after the other, are the customer's purchases from
    the latest to the earliest, each exactly once.  With distinct dates
    there is only one such list, so the order in which a query returns
    purchases of equal date plays no part. *)
Theorem getCustomerPurchases_pages_cover
    (user id : nat) (limit : Z) (d : db) (c : Customer.t) (n : nat) :
  findOne_customer id user (customers d) = Some c →
  1 ≤ limit →
  ceil_div (Stats.count (match_customer id (purchases d))) limit = Some (Z.of_nat n) →
  NoDup (Purchase.purchaseDate <$> match_customer id (purchases d)) →
  let all :=
    concat ((λ k, page_purchases
                    (getCustomerPurchases user id (Z.of_nat k) limit d)) <$> seq 1 n) in
  all ≡ₚ match_customer id (purchases d)
  ∧ StronglySorted (λ p q, Purchase.purchaseDate q < Purchase.purchaseDate p) all
  ∧ ∀ l, l ≡ₚ match_customer id (purchases d) →
         StronglySorted (λ p q, Purchase.purchaseDate q ≤ Purchase.purchaseDate p) l →
         l = all.
Proof.
  intros Hf Hl Hn Hnd all.
  set (sorted := sort_by latest_first_leb (match_customer id (purchases d))).
  assert (all = sorted) as ->.
  { subst all.
    rewrite <- (fmap_S_seq 0 n), <- list_fmap_compose.
    rewrite (list_fmap_ext _
               (λ i, take (Z.to_nat limit) (drop (i * Z.to_nat limit) sorted))).
    - rewrite concat_pages. apply take_ge.
      destruct (ceil_div_spec (Stats.count (match_customer id (purchases d))) limit)
        as (n' & Hn' & _ & Hb); [unfold Stats.count; lia | done |].
      rewrite Hn in Hn'. injection Hn' as <-.
      unfold Stats.count in Hb. subst sorted. rewrite length_sort_by. nia.
    - intros i k _. simpl. unfold getCustomerPurchases. rewrite Hf. fold sorted.
      destruct (mongo_skip_limit (Z.of_nat (S k)) limit sorted) as (sk & -> & Hlim);
        [lia | done |].
      simpl. rewrite Hlim. do 3 f_equal. lia. }
  assert (Hperm : sorted ≡ₚ match_customer id (purchases d))
    by apply sort_by_Permutation.
  assert (Hsorted : StronglySorted
            (λ p q, Purchase.purchaseDate q ≤ Purchase.purchaseDate p) sorted).
  { eapply StronglySorted_mono; [|apply sort_by_sorted].
    - intros p q. unfold latest_first_leb. by rewrite Z.leb_le.
    - intros p q. unfold latest_first_leb. rewrite !Z.leb_le. lia.
    - intros p q r. unfold latest_first_leb. rewrite !Z.leb_le. lia. }
  assert (Hnd' : NoDup (Purchase.purchaseDate <$> sorted)) by (by rewrite Hperm).
  split; [done|]. split.
  - apply (StronglySorted_distinct Purchase.purchaseDate); done.
  - intros l Hl' Hs.
    apply (StronglySorted_unique_strong
             (λ p q, Purchase.purchaseDate q ≤ Purchase.purchaseDate p) l sorted);
      [|done|done|by rewrite Hperm].
    intros p q Hp Hq Hpq Hqp. rewrite Hl', <- Hperm in Hp.
    apply (NoDup_fmap_elem_inj Purchase.purchaseDate sorted); [done..|lia].
Qed.

Lemma getCustomerPurchases_pages_cover_witness :
  page_purchases (getCustomerPurchases Sample.shop 7 1 10 Sample.db0) ++ []
  ≡ₚ match_customer 7 (purchases Sample.db0).
Proof.
  apply (getCustomerPurchases_pages_cover Sample.shop 7 10 Sample.db0 Sample.alice 1).
  - vm_compute. reflexivity.
  - lia.
  - vm_compute. reflexivity.
  - vm_compute. apply NoDup_singleton.
Defined.

(** * Customers with overdue payments *)

Section OverdueCustomers.

Lemma existsb_overdue (now : Z) (l : list Purchase.t) :
  existsb (λ p, Js.after now (Purchase.dueDate p)
                && Js.gt0 (Purchase.remainingAmount p)) l = true
  ↔ ∃ p, p ∈ l ∧ Purchase.isOverdue now p = true.
Proof.
  rewrite existsb_exists. split; intros (p & Hp & Ho); exists p;
    (split; [by apply list_elem_of_In|done]).
Qed.

Lemma after_agg_dueDate_lt (now1 now2 : Z) (p : Purchase.t) :
  now1 ≤ now2 → Js.after now1 (Purchase.dueDate p) = true →
  agg_dueDate_lt now2 p = true.
Proof.
  unfold Js.after, agg_dueDate_lt. intros Hle.
  destruct (Purchase.dueDate p) as [t|]; [|done]. rewrite !Z.ltb_lt. lia.
Qed.

End OverdueCustomers.

(** X25: [getOverdueCustomers] lists exactly the customers of the caller's
    shop that have a purchase on which [isOverdue] is true at the first
    clock reading.  For each, [overduePurchases] holds the customer's
    purchases with a positive balance whose due date is before the second
    clock reading or is missing (a missing date is below every date in an
    aggregation expression), so it also holds purchases that have no due
    date.  As the clock does not run backwards, no listed customer has an
    empty [overduePurchases]. *)
Theorem getOverdueCustomers_rows (now1 now2 : Z) (user : nat) (d : db) :
  let rows := getOverdueCustomers now1 now2 user d in
  (∀ id, (∃ r, r ∈ rows ∧ OverdueCustomer._id r = id)
         ↔ ∃ c p, customers d !! id = Some c
                  ∧ Customer.createdBy c = user
                  ∧ p ∈ match_customer id (purchases d)
                  ∧ Purchase.isOverdue now1 p = true)
  ∧ (∀ r p, r ∈ rows →
            p ∈ OverdueCustomer.overduePurchases r
            ↔ p ∈ match_customer (OverdueCustomer._id r) (purchases d)
              ∧ Js.gt0 (Purchase.remainingAmount p) = true
              ∧ (Purchase.dueDate p = None
                 ∨ ∃ t, Purchase.dueDate p = Some t ∧ t < now2))
  ∧ (now1 ≤ now2 → ∀ r, r ∈ rows → OverdueCustomer.overduePurchases r ≠ []).
Proof.
  intros rows. subst rows. unfold getOverdueCustomers.
  set (own := filter (λ x, customer_of_shop user x.2 = true) (map_to_list (customers d))).
  assert (Hown : ∀ id c, (id, c) ∈ own
                         ↔ customers d !! id = Some c ∧ Customer.createdBy c = user).
  { intros id c. subst own. rewrite list_elem_of_filter, elem_of_map_to_list.
    unfold customer_of_shop. simpl. rewrite bool_decide_eq_true. tauto. }
  assert (Hrow : ∀ r,
    r ∈ (λ x, OverdueCustomer.mk x.1
                (filter (λ p, (agg_dueDate_lt now2 p
                               && Js.gt0 (Purchase.remainingAmount p)) = true) x.2))
        <$> filter (λ x, existsb (λ p, Js.after now1 (Purchase.dueDate p)
                                       && Js.gt0 (Purchase.remainingAmount p)) x.2 = true)
              ((λ x, (x.1, match_customer x.1 (purchases d))) <$> own)
    ↔ ∃ c, (OverdueCustomer._id r, c) ∈ own
           ∧ (∃ p, p ∈ match_customer (OverdueCustomer._id r) (purchases d)
                   ∧ Purchase.isOverdue now1 p = true)
           ∧ OverdueCustomer.overduePurchases r
             = filter (λ p, (agg_dueDate_lt now2 p
                             && Js.gt0 (Purchase.remainingAmount p)) = true)
                      (match_customer (OverdueCustomer._id r) (purchases d))).
  { intros r. rewrite list_elem_of_fmap. split.
    - intros ([id l] & -> & [Hex Hin]%list_elem_of_filter).
      apply list_elem_of_fmap in Hin as ([id' c] & [= -> ->] & Hin).
      simpl in *. exists c. split; [done|]. split; [|done].
      by apply existsb_overdue.
    - intros (c & Hin & Hex & Hov). destruct r as [id l]. simpl in *.
      exists (id, match_customer id (purchases d)). split; [by rewrite Hov|].
      apply list_elem_of_filter. split; [by apply existsb_overdue|].
      apply list_elem_of_fmap. by exists (id, c). }
  split; [|split].
  - intros id. split.
    + intros (r & (c & Hin & (p & Hp & Ho) & _)%Hrow & <-).
      apply Hown in Hin as [Hc Hby]. by exists c, p.
    + intros (c & p & Hc & Hby & Hp & Ho).
      exists (OverdueCustomer.mk id
                (filter (λ p, (agg_dueDate_lt now2 p
                               && Js.gt0 (Purchase.remainingAmount p)) = true)
                        (match_customer id (purchases d)))).
      split; [|done]. apply Hrow. simpl. exists c.
      split; [by apply Hown|]. split; [by exists p|done].
  - intros r p (c & _ & _ & ->)%Hrow.
    rewrite list_elem_of_filter, andb_true_iff. unfold agg_dueDate_lt.
    destruct (Purchase.dueDate p) as [t|]; rewrite ?Z.ltb_lt.
    + split.
      * intros [[Ht Hr] Hp]. split; [done|]. split; [done|]. right. by exists t.
      * intros (Hp & Hr & [Hn|(t' & [= <-] & Ht)]); done.
    + split.
      * intros [[_ Hr] Hp]. split; [done|]. split; [done|]. by left.
      * by intros (Hp & Hr & _).
  - intros Hle r (c & _ & (p & Hp & Ho) & ->)%Hrow Hnil.
    assert (p ∈ filter (λ p, (agg_dueDate_lt now2 p
                              && Js.gt0 (Purchase.remainingAmount p)) = true)
                       (match_customer (OverdueCustomer._id r) (purchases d))) as Hin.
    { apply list_elem_of_filter. split; [|done].
      unfold Purchase.isOverdue in Ho. apply andb_true_iff in Ho as [Ha Hr].
      apply andb_true_iff. split; [|done]. by apply (after_agg_dueDate_lt now1). }
    rewrite Hnil in Hin. by apply not_elem_of_nil in Hin.
Qed.

Lemma getOverdueCustomers_rows_witness :
  ∃ r, r ∈ getOverdueCustomers 5000 5001 Sample.shop
             (set_purchases (<[12%nat := Sample.cancelled_due]> (purchases Sample.db0))
                            Sample.db0)
       ∧ OverdueCustomer._id r = 7%nat.
Proof.
  apply (getOverdueCustomers_rows 5000 5001 Sample.shop).
  exists Sample.alice, Sample.cancelled_due.
  split; [vm_compute; reflexivity|]. split; [reflexivity|].
  split; [|reflexivity].
  apply elem_of_match_customer. split; [reflexivity|].
  exists 12%nat. vm_compute. reflexivity.
Defined.

(** * [checkOwnership] against the routes' own scoping *)

(** X26: for a user whose role is not [owner], [checkOwnership] on the
    purchases lets the request through exactly when [getPurchase] finds the
    purchase.  It answers 404 exactly when no purchase has the id, and 403
    exactly when the purchase exists, belongs to another user and the role
    is not [owner]: unlike the routes, it tells a foreign purchase from a
    missing one.  An [owner] passes for every existing purchase. *)
Theorem checkOwnership_purchase (user : User.t) (id : nat) (d : db) :
  let check := checkOwnership (λ i, purchases d !! i) Purchase.createdBy user id in
  (User.role user ≠ "owner"%string →
   check = None ↔ ∃ p, getPurchase (User._id user) id d = (d, Sent 200 p))
  ∧ (User.role user = "owner"%string → check = None ↔ is_Some (purchases d !! id))
  ∧ ((∃ e, check = Some e ∧ NotFoundError e) ↔ purchases d !! id = None)
  ∧ ((∃ e, check = Some e ∧ ForbiddenError e)
     ↔ ∃ p, purchases d !! id = Some p
            ∧ Purchase.createdBy p ≠ User._id user
            ∧ User.role user ≠ "owner"%string).
Proof.
  intros check. subst check. unfold checkOwnership, getPurchase, findOne_purchase.
  destruct (purchases d !! id) as [p|] eqn:E.
  - destruct (decide (User.role user = "owner"%string)) as [Ho|Ho].
    + split; [done|]. split; [by intros _; split; [eexists|]|].
      split; [split; [by intros (e & [=] & _)|done]|].
      split; [by intros (e & [=] & _)|]. by intros (p' & _ & _ & ?).
    + destruct (decide (Purchase.createdBy p ≠ User._id user)) as [Hn|Hn].
      * rewrite decide_False by done.
        split; [intros _; split; [done|by intros [? [=]]]|].
        split; [done|].
        split; [split; [|done]; intros (e & [= <-] & [m Hm]); discriminate Hm|].
        split; [intros _; by exists p|]. intros _. eexists. split; [done|]. by eexists.
      * apply dec_stable in Hn. rewrite decide_True by done.
        split; [intros _; split; [by eexists|done]|].
        split; [done|].
        split; [split; [by intros (e & [=] & _)|done]|].
        split; [by intros (e & [=] & _)|].
        intros (p' & [= <-] & Hne & _). done.
  - split; [intros _; split; [done|by intros [? [=]]]|].
    split; [intros _; split; [done|by intros [? [=]]]|].
    split; [split; [done|]; intros _; eexists; split; [done|by eexists]|].
    split; [intros (e & [= <-] & [m Hm]); discriminate Hm|].
    by intros (p' & [=] & _).
Qed.

Lemma checkOwnership_purchase_witness :
  checkOwnership (λ i, purchases Sample.db0 !! i) Purchase.createdBy
    (User.mk Sample.shop "staff") 10 = None.
Proof.
  destruct (checkOwnership_purchase (User.mk Sample.shop "staff") 10 Sample.db0)
    as (H & _).
  simpl in H. apply (proj2 (H ltac:(discriminate))).
  eexists. vm_compute. reflexivity.
Defined.

(** * More on the monthly comparison *)

Section GrowthDirection.

Local Open Scope Q_scope.

Lemma toFixed_2_sign (x : Q) :
  (0 <= x → 0 <= toFixed 2 x)
  ∧ (x <= 0 → toFixed 2 x <= 0)
  ∧ (-100 <= x → -100 <= toFixed 2 x).
Proof.
  unfold toFixed.
  change (Z.to_pos (10 ^ Z.of_nat 2)) with 100%positive.
  change (inject_Z (Z.pos 100)) with 100.
  assert (0 <= Qfloor (Qabs x * 100 + (1 # 2)))%Z as Hn.
  { change 0%Z with (Qfloor 0). apply Qfloor_resp_le.
    pose proof (Qabs_nonneg x). lra. }
  destruct (Qle_bool 0 x) eqn:E.
  - apply Qle_bool_iff in E. split; [|split].
    + intros _. set (n := Qfloor _) in *. clearbody n. unfold Qle. simpl. lia.
    + intros Hx. assert (x == 0) as Hz by lra.
      assert (Qfloor (Qabs x * 100 + (1 # 2)) = 0%Z) as ->; [|done].
      rewrite Hz. reflexivity.
    + intros _. set (n := Qfloor _) in *. clearbody n. unfold Qle. simpl. lia.
  - assert (x < 0) as Hneg.
    { apply Qnot_le_lt. intros H. apply Qle_bool_iff in H. congruence. }
    split; [|split].
    + intros Hx. lra.
    + intros _. set (n := Qfloor _) in *. clearbody n. unfold Qle. simpl. lia.
    + intros Hx.
      assert (Qfloor (Qabs x * 100 + (1 # 2)) <= 10000)%Z as Hhi.
      { change 10000%Z with (Qfloor (10000 + (1 # 2))). apply Qfloor_resp_le.
        rewrite (Qabs_neg x) by lra. lra. }
      set (n := Qfloor _) in *. clearbody n. unfold Qle. simpl. lia.
Qed.

Lemma exact_growth_sign (current previous : Z) :
  (0 < previous)%Z →
  ((previous ≤ current)%Z → 0 <= exact_growth current previous)
  ∧ ((current ≤ previous)%Z → exact_growth current previous <= 0)
  ∧ ((0 ≤ current)%Z → -100 <= exact_growth current previous).
Proof.
  intros Hp. unfold exact_growth.
  assert (0 < inject_Z previous) as Qp by (unfold Qlt; simpl; lia).
  set (b := inject_Z previous) in *.
  assert ((inject_Z current - b) / b == inject_Z current / b - 1) as Heq.
  { field. lra. }
  rewrite Heq.
  split; [|split]; intros H.
  - assert (b <= inject_Z current) as Hc by (subst b; unfold Qle; simpl; lia).
    assert (1 <= inject_Z current / b)
      by (apply Qle_shift_div_l; [done | by rewrite Qmult_1_l]).
    lra.
  - assert (inject_Z current <= b) as Hc by (subst b; unfold Qle; simpl; lia).
    assert (inject_Z current / b <= 1)
      by (apply Qle_shift_div_r; [done | by rewrite Qmult_1_l]).
    lra.
  - assert (0 <= inject_Z current) as Hc by (unfold Qle; simpl; lia).
    assert (0 <= inject_Z current / b)
      by (apply Qle_shift_div_l; [done | by rewrite Qmult_0_l]).
    lra.
Qed.

End GrowthDirection.

(** X27: with a positive previous figure, the growth has the direction of
    the change: it is not negative when the current figure is at least the
    previous one, not positive when it is at most the previous one, hence 0
    when they are equal; and it is never below -100 for a current figure
    that is not negative. *)
Theorem growth_direction (current previous : Z) :
  0 < previous →
  (previous ≤ current → (0 <= growth current previous)%Q)
  ∧ (current ≤ previous → (growth current previous <= 0)%Q)
  ∧ (current = previous → (growth current previous == 0)%Q)
  ∧ (0 ≤ current → (-100 <= growth current previous)%Q).
Proof.
  intros Hp. unfold growth. rewrite (proj2 (Z.ltb_lt 0 previous) Hp).
  fold (exact_growth current previous).
  destruct (exact_growth_sign current previous Hp) as (H1 & H2 & H3).
  destruct (toFixed_2_sign (exact_growth current previous)) as (T1 & T2 & T3).
  split; [auto|]. split; [auto|]. split; [|auto].
  intros ->. apply Qle_antisym; [apply T2, H2 | apply T1, H1]; lia.
Qed.

Lemma growth_direction_witness :
  (0 <= growth 400 300)%Q ∧ (growth 100 300 <= 0)%Q ∧ (-100 <= growth 0 300)%Q.
Proof.
  split; [|split].
  - apply (growth_direction 400 300); lia.
  - apply (growth_direction 100 300); lia.
  - apply (growth_direction 0 300); lia.
Defined.

Section MonthFrame.

Implicit Types (l : list Purchase.t).

Lemma sum_totalAmount_Permutation l l' :
  l ≡ₚ l' → Stats.sum_totalAmount l = Stats.sum_totalAmount l'.
Proof. induction 1; simpl; lia. Qed.

Lemma sum_paidAmount_Permutation l l' :
  l ≡ₚ l' → Month.sum_paidAmount l = Month.sum_paidAmount l'.
Proof. induction 1; simpl; lia. Qed.

Lemma Month_group_Permutation l l' : l ≡ₚ l' → Month.group l = Month.group l'.
Proof.
  intros H. unfold Month.group, Stats.count.
  rewrite (sum_totalAmount_Permutation _ _ H), (sum_paidAmount_Permutation _ _ H).
  pose proof (Permutation_length H) as Hlen.
  destruct l, l'; simpl in *; try done. by rewrite Hlen.
Qed.

Lemma documents_insert {A} (m : gmap nat A) (i : nat) (x : A) :
  m !! i = None → documents (<[i := x]> m) ≡ₚ x :: documents m.
Proof.
  intros H. unfold documents. by rewrite (map_to_list_insert m i x H).
Qed.

Lemma match_period_insert_out user from to (ps : gmap nat Purchase.t) i p :
  ps !! i = None → in_period user from to p = false →
  match_period user from to (<[i := p]> ps) ≡ₚ match_period user from to ps.
Proof.
  intros Hi Hout. unfold match_period.
  rewrite (documents_insert ps i p Hi), filter_cons.
  by rewrite decide_False by (by rewrite Hout).
Qed.

End MonthFrame.

(** X28: the monthly comparison reads only the caller's purchases of the
    two windows.  Storing a purchase of another shop changes nothing, and
    neither does one dated before the current month's start that is either
    before the previous month's start or after [previousMonthEnd]: what
    falls between [previousMonthEnd] and [currentMonthStart] is counted in
    neither month. *)
Theorem getMonthlyComparison_ignores
    (user : nat) (currentMonthStart previousMonthStart previousMonthEnd : Z)
    (d : db) (i : nat) (p : Purchase.t) :
  purchases d !! i = None →
  (Purchase.createdBy p ≠ user
   ∨ (Purchase.purchaseDate p < currentMonthStart
      ∧ (Purchase.purchaseDate p < previousMonthStart
         ∨ previousMonthEnd < Purchase.purchaseDate p))) →
  getMonthlyComparison user currentMonthStart previousMonthStart previousMonthEnd
    (set_purchases (<[i := p]> (purchases d)) d)
  = getMonthlyComparison user currentMonthStart previousMonthStart previousMonthEnd d.
Proof.
  intros Hi Hout.
  assert (in_period user currentMonthStart None p = false
          ∧ in_period user previousMonthStart (Some previousMonthEnd) p = false)
    as [H1 H2].
  { unfold in_period. destruct Hout as [Hby|[Hc Hp]].
    - by rewrite bool_decide_eq_false_2.
    - split.
      + rewrite (proj2 (Z.leb_gt _ _)) by lia. by rewrite andb_false_r.
      + destruct Hp as [Hp|Hp].
        * rewrite (proj2 (Z.leb_gt previousMonthStart _)) by lia.
          by rewrite andb_false_r.
        * rewrite (proj2 (Z.leb_gt _ previousMonthEnd)) by lia.
          by rewrite andb_false_r. }
  unfold getMonthlyComparison. simpl.
  by rewrite (Month_group_Permutation _ _
                (match_period_insert_out user _ None _ i p Hi H1)),
             (Month_group_Permutation _ _
                (match_period_insert_out user _ (Some previousMonthEnd) _ i p Hi H2)).
Qed.

Lemma getMonthlyComparison_ignores_witness :
  getMonthlyComparison Sample.shop 500 0 400
    (set_purchases
       (<[12%nat := Purchase.mk 7 [] (Some 50) pending cash 450 None 0 (Some 50) Sample.shop]>
          (purchases Sample.db1)) Sample.db1)
  = getMonthlyComparison Sample.shop 500 0 400 Sample.db1.
Proof.
  apply (getMonthlyComparison_ignores Sample.shop 500 0 400 Sample.db1 12).
  - vm_compute. reflexivity.
  - right. simpl. lia.
Defined.

(** * The seeder's sample purchases *)

(** X29: a sample purchase of the seeder, for a product of its table and a
    quantity of at least 1, passes the schema's validators and is already
    what the [pre('save')] hook would make of it at the same time: the
    hook, which [insertMany] does not run, would change nothing. *)
Theorem generateSamplePurchase_derived
    (customer userId : nat) (product : string * Z) (quantity : Z)
    (paidInFull : bool) (purchaseDate due now : Z) (method : paymentMethod_t) :
  product ∈ products → 1 ≤ quantity →
  let p := generateSamplePurchase customer userId product quantity paidInFull
                                  purchaseDate due now method in
  Purchase.valid p = true ∧ Purchase.pre_save now p = p.
Proof.
  intros Hprod Hq p. subst p.
  assert (0 ≤ product.2) as Hprice.
  { unfold products in Hprod.
    repeat (apply elem_of_cons in Hprod as [->|Hprod]; [simpl; lia|]).
    by apply not_elem_of_nil in Hprod. }
  clear Hprod. destruct product as [name price]. simpl in Hprice.
  unfold generateSamplePurchase. simpl fst. simpl snd.
  set (total := price * quantity).
  assert (0 ≤ total) as Ht by (subst total; nia).
  set (paid := if paidInFull then total else total / 2).
  assert (0 ≤ paid ≤ total) as Hpaid.
  { subst paid. destruct paidInFull; [lia|].
    pose proof (Z.div_pos total 2). pose proof (Z.div_le_upper_bound total 2 total).
    lia. }
  split.
  - unfold Purchase.valid, Item.valid. simpl.
    rewrite !andb_true_iff, !Z.leb_le. repeat split; lia || done.
  - unfold Purchase.pre_save, Purchase.calculate_total, Purchase.update_status.
    cbn -[Z.mul Z.sub Z.div Z.leb Z.ltb Z.eqb].
    replace (0 + quantity * price) with total by (subst total; lia).
    replace (quantity * price) with total by (subst total; lia).
    clearbody paid. clearbody total.
    destruct (total =? 0); cbn -[Z.sub Z.leb Z.ltb];
      destruct (Z.leb_spec (total - paid) 0), (Z.ltb_spec 0 (total - paid));
      try lia; cbn -[Z.sub Z.ltb]; try done;
      destruct (Z.ltb_spec due now); done.
Qed.

Lemma generateSamplePurchase_derived_witness :
  let laptop : string * Z := ("Laptop"%string, 45000) in
  Purchase.pre_save 5000
    (generateSamplePurchase 7 Sample.shop laptop 2 false 1000 4000 5000 upi)
  = generateSamplePurchase 7 Sample.shop laptop 2 false 1000 4000 5000 upi.
Proof.
  apply (generateSamplePurchase_derived 7 Sample.shop ("Laptop"%string, 45000) 2 false
           1000 4000 5000 upi).
  - unfold products. do 2 right. left.
  - lia.
Defined.
